(** * Metric converters: input/output conversion and DDP synchronisation

    A shallow embedding of [pytorch_lightning/metrics/converters.py].

    Python values are embedded as the inductive type [pyval]; the numeric
    libraries the module calls ([numpy], [torch]) and the collective
    communication package ([torch.distributed]) are external to the
    repository and are modelled at their interface:

    - element values of numeric buffers are kept abstract (class
      [NumericRuntime]), so that no property below depends on rounding;
    - the state of [torch.distributed], as one process sees it, is a record
      [runtime]; every call into it is logged as an [event], which is what
      lets us speak about probing and blocking.

    Computations of the module run in the monad [M]: they read the runtime,
    log events, and either return a value or raise an exception. *)

From Stdlib Require Import List String Ascii Bool Arith Lia ZArith DecimalString.
Import ListNotations.
Local Open Scope string_scope.
Local Open Scope list_scope.

(* ===================================================================== *)
(** ** Exceptions and results *)

Inductive exn : Type :=
| TypeError (msg : string)
| RuntimeError (msg : string)
| ValueError (msg : string).

Inductive result (A : Type) : Type :=
| Ok (a : A)
| Raise (e : exn).
Arguments Ok {A} a.
Arguments Raise {A} e.

Definition result_bind {A B} (r : result A) (k : A -> result B) : result B :=
  match r with
  | Ok a => k a
  | Raise e => Raise e
  end.

(* ===================================================================== *)
(** ** The numeric runtimes: dtypes, arrays and tensors *)

(** The element types of dense tensors.  All but [bfloat16] are native
    [numpy] types as well. *)
Inductive torch_dtype : Type :=
| uint8 | int8 | int16 | int32 | int64
| float16 | float32 | float64
| complex64 | complex128
| bool_
| bfloat16.

Definition is_bfloat16 (d : torch_dtype) : bool :=
  match d with bfloat16 => true | _ => false end.

(** [tensor.layout], with quantized tensors as a layout of their own. *)
Inductive layout : Type :=
| strided
| sparse_coo
| quantized.

Definition is_strided (l : layout) : bool :=
  match l with strided => true | _ => false end.

Inductive device : Type :=
| cpu
| cuda (index : nat).

Definition device_is_cpu (d : device) : bool :=
  match d with cpu => true | cuda _ => false end.

(** Element types of [numpy] that have no numeric buffer: byte strings,
    unicode strings and Python objects. *)
Inductive opaque_kind : Type :=
| bytes_ (width : nat)
| str_ (width : nat)
| object_.

(** The dtype of an array: a numeric type that [torch] has as well, a
    string or object type, or another type ([uint16], [datetime64],
    structured types, ...) given by its [dtype.str]. *)
Inductive np_dtype : Type :=
| np_numeric (d : torch_dtype)
| np_opaque (k : opaque_kind)
| np_other (descr : string).

Definition decimal (n : nat) : string :=
  DecimalString.NilEmpty.string_of_uint (Nat.to_uint n).

(** [dtype.str], the array-protocol type string (little-endian host);
    [bfloat16] arrays exist only through an extension type, whose
    [dtype.str] is that of a two-byte opaque record. *)
Definition torch_dtype_str (d : torch_dtype) : string :=
  match d with
  | uint8 => "|u1" | int8 => "|i1" | int16 => "<i2" | int32 => "<i4"
  | int64 => "<i8" | float16 => "<f2" | float32 => "<f4" | float64 => "<f8"
  | complex64 => "<c8" | complex128 => "<c16" | bool_ => "|b1"
  | bfloat16 => "<V2"
  end.

Definition dtype_str (d : np_dtype) : string :=
  match d with
  | np_numeric d => torch_dtype_str d
  | np_opaque (bytes_ w) => String.append "|S" (decimal w)
  | np_opaque (str_ w) => String.append "<U" (decimal w)
  | np_opaque object_ => "|O"
  | np_other descr => descr
  end.

(** [np_str_obj_array_pattern = re.compile(r'[SaUO]')] (from
    [torch.utils.data._utils.collate]); [search] returns the position of the
    first match, or [None]. *)
Definition in_SaUO (c : ascii) : bool :=
  (c =? "S")%char || (c =? "a")%char || (c =? "U")%char || (c =? "O")%char.

Fixpoint np_str_obj_array_pattern_search (s : string) : option nat :=
  match s with
  | EmptyString => None
  | String c rest =>
      if in_SaUO c then Some 0
      else option_map S (np_str_obj_array_pattern_search rest)
  end.

Definition is_None {A} (o : option A) : bool :=
  match o with None => true | Some _ => false end.

Definition default {A} (d : A) (o : option A) : A :=
  match o with Some a => a | None => d end.

(** What the numeric runtimes do with numbers and element values. *)
Class NumericRuntime (num : Type) : Type := {
  (** the zero used by [torch.zeros_like] *)
  num_zero : num;
  (** conversion of an element to a dtype ([Tensor.to]) *)
  cast : torch_dtype -> num -> num;
  (** [torch.tensor([x], dtype=dtype)] for a Python number [x]: the dtype
      (requested or inferred) and the element stored, or the exception
      raised for a number that [torch] cannot store (an integer out of
      range, a [Fraction], ...) *)
  torch_scalar : option torch_dtype -> num -> result (torch_dtype * num);
  (** the dtype of [np.array([x])] for a Python number [x]: an object dtype
      for a number that has no native element type *)
  numpy_infer : num -> np_dtype;
  (** [repr(x)], for numbers held as objects *)
  num_repr : num -> string;
  (** elementwise addition, as used by the SUM reduction *)
  num_add : num -> num -> num;
  (** the other reductions: PRODUCT, MIN, MAX *)
  num_mul : num -> num -> num;
  num_min : num -> num -> num;
  num_max : num -> num -> num;
  (** division of an element by a world size *)
  num_div : num -> nat -> num
}.

Section Model.

Context {num : Type} `{NumericRuntime num}.

Record Tensor : Type := mkTensor {
  t_shape : list nat;
  t_dtype : torch_dtype;
  t_device : device;
  t_layout : layout;
  t_requires_grad : bool;
  t_data : list num
}.

(** Arrays: [NumArray] is a numeric array of a dtype that [torch] has, laid
    out with non-negative strides; [ReversedArray] is such an array seen
    through a negative stride (as [a[::-1]]); [OtherArray] is a numeric
    array of any other dtype; [ObjArray] holds strings or objects. *)
Inductive ndarray : Type :=
| NumArray (shape : list nat) (dtype : torch_dtype) (data : list num)
| ObjArray (shape : list nat) (kind : opaque_kind) (items : list string)
| ReversedArray (shape : list nat) (dtype : torch_dtype) (data : list num)
| OtherArray (shape : list nat) (descr : string) (data : list num).

Definition ndarray_dtype (a : ndarray) : np_dtype :=
  match a with
  | NumArray _ d _ | ReversedArray _ d _ => np_numeric d
  | ObjArray _ k _ => np_opaque k
  | OtherArray _ descr _ => np_other descr
  end.

(** [torch.tensor([x], dtype=dtype, device=device)] for a number [x]. *)
Definition torch_tensor (x : num) (dtype : option torch_dtype)
    (dev : option device) : result Tensor :=
  result_bind (torch_scalar dtype x)
    (fun de =>
       Ok {| t_shape := [1];
             t_dtype := fst de;
             t_device := default cpu dev;
             t_layout := strided;
             t_requires_grad := false;
             t_data := [snd de] |}).

(** [torch.from_numpy(a)]: the tensor shares the array's buffer.  Arrays of
    strings, objects or another dtype that [torch] lacks are refused with a
    [TypeError], arrays with a negative stride with a [ValueError]. *)
Definition torch_from_numpy (a : ndarray) : result Tensor :=
  match a with
  | NumArray shape d data =>
      if is_bfloat16 d then
        Raise (TypeError "can't convert np.ndarray of this type")
      else
        Ok {| t_shape := shape; t_dtype := d; t_device := cpu;
              t_layout := strided; t_requires_grad := false;
              t_data := data |}
  | ObjArray _ _ _ | OtherArray _ _ _ =>
      Raise (TypeError "can't convert np.ndarray of this type")
  | ReversedArray _ _ _ =>
      Raise (ValueError
               "At least one stride in the given numpy array is negative")
  end.

(** [t.to(device=device, dtype=dtype)]; with both [None] it returns [t]. *)
Definition Tensor_to (t : Tensor) (dev : option device)
    (dtype : option torch_dtype) : Tensor :=
  {| t_shape := t_shape t;
     t_dtype := default (t_dtype t) dtype;
     t_device := default (t_device t) dev;
     t_layout := t_layout t;
     t_requires_grad := t_requires_grad t;
     t_data := match dtype with
               | Some d => map (cast d) (t_data t)
               | None => t_data t
               end |}.

Definition Tensor_cpu (t : Tensor) : Tensor :=
  {| t_shape := t_shape t; t_dtype := t_dtype t; t_device := cpu;
     t_layout := t_layout t;
     t_requires_grad := t_requires_grad t; t_data := t_data t |}.

Definition Tensor_detach (t : Tensor) : Tensor :=
  {| t_shape := t_shape t; t_dtype := t_dtype t; t_device := t_device t;
     t_layout := t_layout t;
     t_requires_grad := false; t_data := t_data t |}.

(** [t.numpy()]: only for dense host tensors outside the autograd graph,
    of a dtype that [numpy] has. *)
Definition Tensor_numpy (t : Tensor) : result ndarray :=
  if t_requires_grad t then
    Raise (RuntimeError "Can't call numpy() on Tensor that requires grad.")
  else if negb (device_is_cpu (t_device t)) then
    Raise (TypeError "can't convert device type tensor to numpy.")
  else if negb (is_strided (t_layout t)) then
    Raise (TypeError "can't convert a tensor of this layout to numpy.")
  else if is_bfloat16 (t_dtype t) then
    Raise (TypeError "Got unsupported ScalarType BFloat16")
  else Ok (NumArray (t_shape t) (t_dtype t) (t_data t)).

(** [np.array([x])] for a number [x]. *)
Definition np_array (x : num) : ndarray :=
  match numpy_infer x with
  | np_numeric d => NumArray [1] d [x]
  | np_opaque k => ObjArray [1] k [num_repr x]
  | np_other descr => OtherArray [1] descr [x]
  end.

(** [torch.zeros_like(t)] *)
Definition torch_zeros_like (t : Tensor) : Tensor :=
  {| t_shape := t_shape t; t_dtype := t_dtype t; t_device := t_device t;
     t_layout := t_layout t;
     t_requires_grad := false;
     t_data := map (fun _ => num_zero) (t_data t) |}.

(** [t / n] for an integer [n]. *)
Definition Tensor_truediv (t : Tensor) (n : nat) : Tensor :=
  {| t_shape := t_shape t; t_dtype := t_dtype t; t_device := t_device t;
     t_layout := t_layout t;
     t_requires_grad := t_requires_grad t;
     t_data := map (fun x => num_div x n) (t_data t) |}.

(* ===================================================================== *)
(** ** Python values *)

Local Unset Elimination Schemes.

(** A dict is an association list in insertion order (keys unique); a set is
    the list of its elements in iteration order. *)
Inductive pyval : Type :=
| VNumber (x : num)
| VNdarray (a : ndarray)
| VTensor (t : Tensor)
| VStr (s : string)
| VNone
| VList (items : list pyval)
| VTuple (items : list pyval)
| VDict (items : list (pyval * pyval))
| VSet (items : list pyval).

Local Set Elimination Schemes.

Section pyval_ind.
Variable P : pyval -> Prop.
Hypothesis P_number : forall x, P (VNumber x).
Hypothesis P_ndarray : forall a, P (VNdarray a).
Hypothesis P_tensor : forall t, P (VTensor t).
Hypothesis P_str : forall s, P (VStr s).
Hypothesis P_none : P VNone.
Hypothesis P_list : forall l, Forall P l -> P (VList l).
Hypothesis P_tuple : forall l, Forall P l -> P (VTuple l).
Hypothesis P_dict :
  forall kvs, Forall (fun kv => P (snd kv)) kvs -> P (VDict kvs).
Hypothesis P_set : forall l, Forall P l -> P (VSet l).

Fixpoint pyval_ind (v : pyval) : P v :=
  let fix go (l : list pyval) : Forall P l :=
    match l with
    | [] => Forall_nil _
    | x :: l' => Forall_cons _ (pyval_ind x) (go l')
    end in
  let fix go_kv (l : list (pyval * pyval))
      : Forall (fun kv => P (snd kv)) l :=
    match l with
    | [] => Forall_nil _
    | kv :: l' =>
        Forall_cons (P := fun kv => P (snd kv)) kv
          (pyval_ind (snd kv)) (go_kv l')
    end in
  match v with
  | VNumber x => P_number x
  | VNdarray a => P_ndarray a
  | VTensor t => P_tensor t
  | VStr s => P_str s
  | VNone => P_none
  | VList l => P_list l (go l)
  | VTuple l => P_tuple l (go l)
  | VDict kvs => P_dict kvs (go_kv kvs)
  | VSet l => P_set l (go l)
  end.
End pyval_ind.

(** The classes [isinstance] is asked about. *)
Inductive pytype : Type :=
| numbers_Number | np_ndarray | torch_Tensor
| py_str | py_NoneType | py_list | py_tuple | py_dict | py_set.

Definition pytype_eqb (a b : pytype) : bool :=
  match a, b with
  | numbers_Number, numbers_Number | np_ndarray, np_ndarray
  | torch_Tensor, torch_Tensor | py_str, py_str
  | py_NoneType, py_NoneType | py_list, py_list | py_tuple, py_tuple
  | py_dict, py_dict | py_set, py_set => true
  | _, _ => false
  end.

Definition type_of (v : pyval) : pytype :=
  match v with
  | VNumber _ => numbers_Number
  | VNdarray _ => np_ndarray
  | VTensor _ => torch_Tensor
  | VStr _ => py_str
  | VNone => py_NoneType
  | VList _ => py_list
  | VTuple _ => py_tuple
  | VDict _ => py_dict
  | VSet _ => py_set
  end.

(** [type(v).__name__]; the name of a number's class ([int], [float], ...)
    is never printed by the module, whose messages are for values it cannot
    convert. *)
Definition type_name (v : pyval) : string :=
  match type_of v with
  | numbers_Number => "Number"
  | np_ndarray => "ndarray"
  | torch_Tensor => "Tensor"
  | py_str => "str"
  | py_NoneType => "NoneType"
  | py_list => "list"
  | py_tuple => "tuple"
  | py_dict => "dict"
  | py_set => "set"
  end.

(** [isinstance(v, types)] for a tuple of classes. *)
Definition isinstance (v : pyval) (types : list pytype) : bool :=
  existsb (pytype_eqb (type_of v)) types.


(* ===================================================================== *)
(** ** The collective-communication runtime ([torch.distributed]) *)

Inductive ReduceOp : Type := SUM | PRODUCT | MIN | MAX.

(** What a caller may pass as [reduce_op]: a [ReduceOp] or a string. *)
Inductive reduce_op_arg : Type :=
| op_enum (o : ReduceOp)
| op_str (s : string).

(** Process-group handles; [group_WORLD] is [torch.distributed.group.WORLD]. *)
Inductive process_group : Type :=
| group_WORLD
| new_group (ranks : list nat).

(** Calls into [torch.distributed], in the order they are made. *)
Inductive event : Type :=
| ev_is_available
| ev_is_initialized
| ev_barrier (g : process_group)
| ev_all_reduce (op : reduce_op_arg) (g : process_group)
| ev_get_world_size (g : process_group)
| ev_all_gather (g : process_group).

(** The state of [torch.distributed] as the calling process sees it at the
    time of a call.  [dist_all_reduce t op g] is the content of [t] after the
    in-place reduction; [dist_all_gather out t g] is the content of the
    output list after the gather. *)
Record runtime : Type := mkRuntime {
  dist_available : bool;
  dist_initialized : bool;
  dist_world_size : process_group -> nat;
  dist_barrier : process_group -> result unit;
  dist_all_reduce : Tensor -> ReduceOp -> process_group -> result Tensor;
  dist_all_gather :
    list Tensor -> Tensor -> process_group -> result (list Tensor)
}.

(** Computations: read the runtime, log the calls made into it, return a
    value or raise. *)
Definition M (A : Type) : Type := runtime -> list event * result A.

Definition ret {A} (a : A) : M A := fun _ => ([], Ok a).

Definition lift {A} (r : result A) : M A := fun _ => ([], r).

Definition bind {A B} (m : M A) (k : A -> M B) : M B :=
  fun rt =>
    match m rt with
    | (tr, Ok a) => let (tr', r) := k a rt in (tr ++ tr', r)
    | (tr, Raise e) => (tr, Raise e)
    end.

Definition mapM {A B} (f : A -> M B) : list A -> M (list B) :=
  fix go (l : list A) : M (list B) :=
    match l with
    | [] => ret []
    | x :: l' => bind (f x) (fun y => bind (go l') (fun ys => ret (y :: ys)))
    end.

Definition is_available : M bool :=
  fun rt => ([ev_is_available], Ok (dist_available rt)).

Definition is_initialized : M bool :=
  fun rt => ([ev_is_initialized], Ok (dist_initialized rt)).

Definition barrier (g : process_group) : M unit :=
  fun rt => ([ev_barrier g], dist_barrier rt g).

Definition get_world_size (g : process_group) : M nat :=
  fun rt => ([ev_get_world_size g], Ok (dist_world_size rt g)).

(** [all_reduce(tensor, op, group, async_op=False)]: the argument must be a
    tensor and [op] a [ReduceOp]; the result is the reduced tensor. *)
Definition all_reduce (v : pyval) (op : reduce_op_arg) (g : process_group)
    : M Tensor :=
  fun rt =>
    ([ev_all_reduce op g],
     match v, op with
     | VTensor t, op_enum o => dist_all_reduce rt t o g
     | VTensor _, op_str _ =>
         Raise (TypeError "all_reduce(): op must be a ReduceOp")
     | _, _ => Raise (TypeError "all_reduce(): tensor must be a Tensor")
     end).

(** [all_gather(tensor_list, tensor, group)] *)
Definition all_gather (out : list Tensor) (v : pyval) (g : process_group)
    : M (list Tensor) :=
  fun rt =>
    ([ev_all_gather g],
     match v with
     | VTensor t => dist_all_gather rt out t g
     | _ => Raise (TypeError "all_gather(): tensor must be a Tensor")
     end).

(** [torch.zeros_like(v)] on a Python value. *)
Definition zeros_like (v : pyval) : result Tensor :=
  match v with
  | VTensor t => Ok (torch_zeros_like t)
  | _ => Raise (TypeError "zeros_like(): input must be a Tensor")
  end.

Notation "x <- c1 ;; c2" := (bind c1 (fun x => c2))
  (at level 61, c1 at next level, right associativity).
Notation "a +++ b" := (String.append a b)
  (at level 60, right associativity).

(* ===================================================================== *)
(** ** [apply_to_collection] *)

(** Modelled from the spec: [apply_to_collection] lives in
    [pytorch_lightning/utilities/apply_func.py], which is not part of the
    sources at hand.  The definition follows the five steps of the
    CollectionMapper algorithm: a value whose type is among [dtype] is
    handed to [function]; a mapping is rebuilt with identical keys and
    recursively mapped values; a list or tuple is rebuilt as its own kind,
    in order; a set is rebuilt from its mapped elements; anything else,
    strings included, is returned unchanged. *)
Fixpoint apply_to_collection (data : pyval) (dtype : list pytype)
    (function : pyval -> M pyval) {struct data} : M pyval :=
  if isinstance data dtype then function data
  else
    match data with
    | VDict kvs =>
        kvs' <- mapM (fun kv =>
                        v' <- apply_to_collection (snd kv) dtype function ;;
                        ret (fst kv, v')) kvs ;;
        ret (VDict kvs')
    | VList l =>
        l' <- mapM (fun d => apply_to_collection d dtype function) l ;;
        ret (VList l')
    | VTuple l =>
        l' <- mapM (fun d => apply_to_collection d dtype function) l ;;
        ret (VTuple l')
    | VSet l =>
        l' <- mapM (fun d => apply_to_collection d dtype function) l ;;
        ret (VSet l')
    | _ => ret data
    end.

(* ===================================================================== *)
(** ** Calling a Python function *)

(** A Python callable: positional arguments, keyword arguments. *)
Definition pyfun : Type := list pyval -> list (string * pyval) -> M pyval.

Fixpoint chunks {A} (size count : nat) (l : list A) : list (list A) :=
  match count with
  | 0 => []
  | S c => firstn size l :: chunks size c (skipn size l)
  end.

Definition chars (s : string) : list pyval :=
  map (fun c => VStr (String c EmptyString)) (list_ascii_of_string s).

(** [list(v)]: what iterating [v] yields (used by [f( *v )]). *)
Definition iterate (v : pyval) : result (list pyval) :=
  match v with
  | VTuple l | VList l | VSet l => Ok l
  | VDict kvs => Ok (map fst kvs)
  | VStr s => Ok (chars s)
  | VTensor t =>
      match t_shape t with
      | [] => Raise (TypeError "iteration over a 0-d tensor")
      | n :: rest =>
          Ok (map (fun d => VTensor (mkTensor rest (t_dtype t) (t_device t)
                                       (t_layout t) (t_requires_grad t) d))
                (chunks (fold_right Nat.mul 1 rest) n (t_data t)))
      end
  | VNdarray (NumArray [] _ _) | VNdarray (ObjArray [] _ _) =>
      Raise (TypeError "iteration over a 0-d array")
  | VNdarray (NumArray [_] _ data) => Ok (map VNumber data)
  | VNdarray (ObjArray [_] _ items) => Ok (map VStr items)
  | VNdarray (NumArray (n :: rest) d data) =>
      Ok (map (fun r => VNdarray (NumArray rest d r))
            (chunks (fold_right Nat.mul 1 rest) n data))
  | VNdarray (ObjArray (n :: rest) k items) =>
      Ok (map (fun r => VNdarray (ObjArray rest k r))
            (chunks (fold_right Nat.mul 1 rest) n items))
  | VNdarray (ReversedArray [] _ _) | VNdarray (OtherArray [] _ _) =>
      Raise (TypeError "iteration over a 0-d array")
  | VNdarray (ReversedArray [_] _ data) | VNdarray (OtherArray [_] _ data) =>
      Ok (map VNumber data)
  | VNdarray (ReversedArray (n :: rest) d data) =>
      Ok (map (fun r => VNdarray (ReversedArray rest d r))
            (chunks (fold_right Nat.mul 1 rest) n data))
  | VNdarray (OtherArray (n :: rest) descr data) =>
      Ok (map (fun r => VNdarray (OtherArray rest descr r))
            (chunks (fold_right Nat.mul 1 rest) n data))
  | VNumber _ | VNone =>
      Raise (TypeError "argument after * must be an iterable")
  end.

(** The keyword arguments denoted by [**v]: [v] must be a mapping whose keys
    are strings. *)
Fixpoint keywords (kvs : list (pyval * pyval))
    : result (list (string * pyval)) :=
  match kvs with
  | [] => Ok []
  | (VStr k, v) :: rest =>
      result_bind (keywords rest) (fun rest' => Ok ((k, v) :: rest'))
  | _ :: _ => Raise (TypeError "keywords must be strings")
  end.

Definition mapping (v : pyval) : result (list (string * pyval)) :=
  match v with
  | VDict kvs => keywords kvs
  | _ => Raise (TypeError "argument after ** must be a mapping")
  end.

(** [f( *args, **kwargs )] *)
Definition call (f : pyfun) (args kwargs : pyval) : M pyval :=
  a <- lift (iterate args) ;;
  k <- lift (mapping kwargs) ;;
  f a k.

(** The dict Python builds for [**kwargs] in a function's parameters. *)
Definition kwargs_dict (kwargs : list (string * pyval)) : pyval :=
  VDict (map (fun kv => (VStr (fst kv), snd kv)) kwargs).

(* ===================================================================== *)
(** ** The decorators *)

Definition _apply_to_inputs (func_to_apply : pyval -> M pyval)
    (func_to_decorate : pyfun) : pyfun :=
  fun args kwargs =>
    args' <- func_to_apply (VTuple args) ;;
    kwargs' <- func_to_apply (kwargs_dict kwargs) ;;
    call func_to_decorate args' kwargs'.

Definition _apply_to_outputs (func_to_apply : pyval -> M pyval)
    (function_to_decorate : pyfun) : pyfun :=
  fun args kwargs =>
    result <- function_to_decorate args kwargs ;;
    func_to_apply result.

Definition convert_to_tensor (data : pyval) (dtype : option torch_dtype)
    (dev : option device) : result pyval :=
  match data with
  | VNumber x =>
      result_bind (torch_tensor x dtype dev) (fun t => Ok (VTensor t))
  | VNdarray a =>
      if is_None (np_str_obj_array_pattern_search
                    (dtype_str (ndarray_dtype a)))
      then result_bind (torch_from_numpy a)
             (fun t => Ok (VTensor (Tensor_to t dev dtype)))
      else Raise (TypeError ("The given type ('" +++ type_name data
                             +++ "') cannot be converted to a tensor!"))
  | VTensor t => Ok (VTensor (Tensor_to t dev dtype))
  | _ => Raise (TypeError ("The given type ('" +++ type_name data
                           +++ "') cannot be converted to a tensor!"))
  end.

Definition convert_to_numpy (data : pyval) : result pyval :=
  match data with
  | VTensor t =>
      result_bind (Tensor_numpy (Tensor_detach (Tensor_cpu t)))
        (fun a => Ok (VNdarray a))
  | VNumber x => Ok (VNdarray (np_array x))
  | VNdarray _ => Ok data
  | _ => Raise (TypeError ("The given type ('" +++ type_name data
                           +++ "') cannot be converted to a numpy array!"))
  end.

(** The tuple [(torch.Tensor, np.ndarray, numbers.Number)]. *)
Definition leaf_types : list pytype :=
  [torch_Tensor; np_ndarray; numbers_Number].

Definition _numpy_metric_input_conversion (func_to_decorate : pyfun)
    : pyfun :=
  _apply_to_inputs
    (fun d => apply_to_collection d leaf_types
                (fun x => lift (convert_to_numpy x)))
    func_to_decorate.

Definition _tensor_metric_output_conversion (func_to_decorate : pyfun)
    : pyfun :=
  _apply_to_outputs (fun d => lift (convert_to_tensor d None None))
    func_to_decorate.

Definition _numpy_metric_conversion (func_to_decorate : pyfun) : pyfun :=
  let func_convert_inputs := _numpy_metric_input_conversion func_to_decorate in
  let func_convert_in_out :=
    _tensor_metric_output_conversion func_convert_inputs in
  func_convert_in_out.

Definition _tensor_metric_input_conversion (func_to_decorate : pyfun)
    : pyfun :=
  _apply_to_inputs
    (fun d => apply_to_collection d leaf_types
                (fun x => lift (convert_to_tensor x None None)))
    func_to_decorate.

Definition _tensor_collection_metric_output_conversion
    (func_to_decorate : pyfun) : pyfun :=
  _apply_to_outputs
    (fun d => apply_to_collection d leaf_types
                (fun x => lift (convert_to_tensor x None None)))
    func_to_decorate.

Definition _tensor_metric_conversion (func_to_decorate : pyfun) : pyfun :=
  let func_convert_inputs :=
    _tensor_metric_input_conversion func_to_decorate in
  _tensor_metric_output_conversion func_convert_inputs.

Definition _tensor_collection_metric_conversion (func_to_decorate : pyfun)
    : pyfun :=
  let func_convert_inputs :=
    _tensor_metric_input_conversion func_to_decorate in
  _tensor_collection_metric_output_conversion func_convert_inputs.


(* ===================================================================== *)
(** ** Synchronisation across processes *)

(** [reduce_op in ('avg', 'mean')] *)
Definition avg_or_mean (s : string) : bool :=
  (s =? "avg")%string || (s =? "mean")%string.

(** [torch.distributed.is_available() and torch.distributed.is_initialized()]:
    the second call is made only when the first returns [True]. *)
Definition available_and_initialized : M bool :=
  available <- is_available ;;
  if available then is_initialized else ret false.

Definition sync_ddp_if_available (result : pyval)
    (group : option process_group) (reduce_op : option reduce_op_arg)
    : M pyval :=
  active <- available_and_initialized ;;
  if active then
    let divide_by_world_size := false in
    let group := match group with None => group_WORLD | Some g => g end in
    let '(reduce_op, divide_by_world_size) :=
      match reduce_op with
      | None => (op_enum SUM, divide_by_world_size)
      | Some (op_str s) =>
          if avg_or_mean s then (op_enum SUM, true)
          else (op_str s, divide_by_world_size)
      | Some (op_enum o) => (op_enum o, divide_by_world_size)
      end in
    (* sync all processes before reduction *)
    _ <- barrier group ;;
    t <- all_reduce result reduce_op group ;;
    if divide_by_world_size then
      n <- get_world_size group ;;
      ret (VTensor (Tensor_truediv t n))
    else ret (VTensor t)
  else ret result.

Definition gather_all_tensors_if_available (result : pyval)
    (group : option process_group) : M pyval :=
  active <- available_and_initialized ;;
  if active then
    let group := match group with None => group_WORLD | Some g => g end in
    world_size <- get_world_size group ;;
    gathered_result <- mapM (fun _ => lift (zeros_like result))
                         (seq 0 world_size) ;;
    (* sync and broadcast all *)
    _ <- barrier group ;;
    gathered <- all_gather gathered_result result group ;;
    ret (VList (map VTensor gathered))
  else ret result.

Definition sync_ddp (group : option process_group)
    (reduce_op : option reduce_op_arg) (func_to_decorate : pyfun) : pyfun :=
  _apply_to_outputs
    (fun d => apply_to_collection d [torch_Tensor]
                (fun x => sync_ddp_if_available x group reduce_op))
    func_to_decorate.

Definition numpy_metric (group : option process_group)
    (reduce_op : option reduce_op_arg) (func_to_decorate : pyfun) : pyfun :=
  sync_ddp group reduce_op (_numpy_metric_conversion func_to_decorate).

Definition tensor_metric (group : option process_group)
    (reduce_op : option reduce_op_arg) (func_to_decorate : pyfun) : pyfun :=
  sync_ddp group reduce_op (_tensor_metric_conversion func_to_decorate).

Definition tensor_collection_metric (group : option process_group)
    (reduce_op : option reduce_op_arg) (func_to_decorate : pyfun) : pyfun :=
  sync_ddp group reduce_op
    (_tensor_collection_metric_conversion func_to_decorate).

(* ===================================================================== *)
(** ** A process group at a collective call *)

Definition reduce_elem (op : ReduceOp) : num -> num -> num :=
  match op with
  | SUM => num_add
  | PRODUCT => num_mul
  | MIN => num_min
  | MAX => num_max
  end.

Fixpoint zip_with {A B C} (f : A -> B -> C) (l1 : list A) (l2 : list B)
    : list C :=
  match l1, l2 with
  | a :: l1', b :: l2' => f a b :: zip_with f l1' l2'
  | _, _ => []
  end.

(** The buffers of all peers combined elementwise, in rank order. *)
Definition reduce_buffers (op : ReduceOp) (bufs : list (list num))
    : list num :=
  match bufs with
  | [] => []
  | b :: rest => fold_left (zip_with (reduce_elem op)) rest b
  end.

Definition with_data (t : Tensor) (data : list num) : Tensor :=
  {| t_shape := t_shape t; t_dtype := t_dtype t; t_device := t_device t;
     t_layout := t_layout t;
     t_requires_grad := t_requires_grad t; t_data := data |}.

Fixpoint replace_nth {A} (n : nat) (x : A) (l : list A) : list A :=
  match n, l with
  | _, [] => []
  | 0, _ :: l' => x :: l'
  | S n', y :: l' => y :: replace_nth n' x l'
  end.

(** The runtime seen by the peer of rank [rank] in a group whose members, in
    rank order, hand the tensors [peers] to the matching collective call (the
    caller's own tensor takes the place of [peers[rank]]).  This is the
    contract of [all_reduce] and [all_gather]: every peer receives the
    combination, respectively the list, of all contributions.  The record
    describes one group at one collective call: every handle denotes that
    group, and the other members contribute the same tensors to every call
    made under it. *)
Definition peer_runtime (peers : list Tensor) (rank : nat) : runtime :=
  {| dist_available := true;
     dist_initialized := true;
     dist_world_size := fun _ => List.length peers;
     dist_barrier := fun _ => Ok tt;
     dist_all_reduce := fun t op _ =>
       Ok (with_data t
             (reduce_buffers op (map t_data (replace_nth rank t peers))));
     dist_all_gather := fun out t _ =>
       Ok (zip_with (fun o p => with_data o (t_data p))
             out (replace_nth rank t peers)) |}.

(** A process in which [torch.distributed] is not available. *)
Definition no_runtime : runtime :=
  {| dist_available := false;
     dist_initialized := false;
     dist_world_size := fun _ => 1;
     dist_barrier := fun _ => Raise (RuntimeError "not initialized");
     dist_all_reduce := fun _ _ _ => Raise (RuntimeError "not initialized");
     dist_all_gather := fun _ _ _ => Raise (RuntimeError "not initialized") |}.

(* ===================================================================== *)
(** ** The synchronisation state of a process *)

Inductive SyncState : Type := Inactive | Active.

Definition sync_state (rt : runtime) : SyncState :=
  if dist_available rt && dist_initialized rt then Active else Inactive.

(** The calls a process makes into the synchronisation layer. *)
Inductive sync_call : Type :=
| Reduce (v : pyval) (group : option process_group)
    (reduce_op : option reduce_op_arg)
| GatherAll (v : pyval) (group : option process_group).

Definition call_input (c : sync_call) : pyval :=
  match c with
  | Reduce v _ _ => v
  | GatherAll v _ => v
  end.

Definition run_call (c : sync_call) : M pyval :=
  match c with
  | Reduce v g op => sync_ddp_if_available v g op
  | GatherAll v g => gather_all_tensors_if_available v g
  end.

(** The life of a process: its calls, each against the runtime as it is at
    that time. *)
Definition run_process (calls : list (runtime * sync_call))
    : list (list event * result pyval) :=
  map (fun rc => run_call (snd rc) (fst rc)) calls.

Definition is_probe (e : event) : bool :=
  match e with
  | ev_is_available | ev_is_initialized => true
  | _ => false
  end.

(** The probes a call makes under a given runtime. *)
Definition probes (rt : runtime) : list event :=
  ev_is_available :: (if dist_available rt then [ev_is_initialized] else []).


(* ===================================================================== *)
(** ** Notions used to state the properties *)

Definition is_container (v : pyval) : bool :=
  match v with
  | VList _ | VTuple _ | VDict _ | VSet _ => true
  | _ => false
  end.

(** [mapped types R v v']: [v'] has the container structure of [v] (same
    kinds, same lengths and order, same keys); where [v] has a value of a
    type in [types], [v'] has an [R]-image of it; every other value that is
    not a container is the same in both. *)
Local Unset Elimination Schemes.

Inductive mapped (types : list pytype) (R : pyval -> pyval -> Prop)
    : pyval -> pyval -> Prop :=
| mapped_leaf v v' :
    isinstance v types = true -> R v v' -> mapped types R v v'
| mapped_dict kvs kvs' :
    isinstance (VDict kvs) types = false ->
    Forall2 (fun kv kv' =>
               fst kv' = fst kv /\ mapped types R (snd kv) (snd kv'))
      kvs kvs' ->
    mapped types R (VDict kvs) (VDict kvs')
| mapped_list l l' :
    isinstance (VList l) types = false ->
    Forall2 (mapped types R) l l' ->
    mapped types R (VList l) (VList l')
| mapped_tuple l l' :
    isinstance (VTuple l) types = false ->
    Forall2 (mapped types R) l l' ->
    mapped types R (VTuple l) (VTuple l')
| mapped_set l l' :
    isinstance (VSet l) types = false ->
    Forall2 (mapped types R) l l' ->
    mapped types R (VSet l) (VSet l')
| mapped_other v :
    isinstance v types = false -> is_container v = false ->
    mapped types R v v.

Local Set Elimination Schemes.

(** [leaves_ok types p v]: every value of [v] that the traversal hands to
    the leaf function satisfies [p]. *)
Fixpoint leaves_ok (types : list pytype) (p : pyval -> bool) (v : pyval)
    {struct v} : bool :=
  if isinstance v types then p v
  else
    match v with
    | VDict kvs => forallb (fun kv => leaves_ok types p (snd kv)) kvs
    | VList l | VTuple l | VSet l => forallb (leaves_ok types p) l
    | _ => true
    end.

(** An array of strings or objects. *)
Definition opaque_array (v : pyval) : bool :=
  match v with
  | VNdarray a =>
      negb (is_None (np_str_obj_array_pattern_search
                       (dtype_str (ndarray_dtype a))))
  | _ => false
  end.

(** The numeric elements of a scalar, a tensor or a numeric array. *)
Definition elements (v : pyval) : option (list num) :=
  match v with
  | VNumber x => Some [x]
  | VTensor t => Some (t_data t)
  | VNdarray (NumArray _ _ data) => Some data
  | VNdarray (ReversedArray _ _ data) => Some data
  | VNdarray (OtherArray _ _ data) => Some data
  | _ => None
  end.

Definition is_Ok {A} (r : result A) : bool :=
  match r with Ok _ => true | Raise _ => false end.

(** The values [convert_to_tensor], with dtype and device left out, turns
    into a tensor. *)
Definition convertible (v : pyval) : bool :=
  is_Ok (convert_to_tensor v None None).

(** The tensors [numpy()] can export once they are on the host and detached:
    dense, of a dtype that [numpy] has. *)
Definition numpy_exportable (t : Tensor) : bool :=
  is_strided (t_layout t) && negb (is_bfloat16 (t_dtype t)).

(** The values [convert_to_numpy] can be handed: anything but a tensor that
    [numpy()] cannot export. *)
Definition numpy_ready (v : pyval) : bool :=
  match v with
  | VTensor t => numpy_exportable t
  | _ => true
  end.

(** The arrays [torch.from_numpy] accepts. *)
Definition from_numpy_accepts (a : ndarray) : bool :=
  is_Ok (torch_from_numpy a).

(** The values the round trip is claimed for: scalars, tensors, and arrays
    whose dtype is not opaque. *)
Definition round_trip_source (v : pyval) : bool :=
  match v with
  | VNumber _ | VTensor _ => true
  | VNdarray _ => negb (opaque_array v)
  | _ => false
  end.

(** [toTensorLike(toArrayLike(x))] *)
Definition round_trip (x : pyval) : result pyval :=
  result_bind (convert_to_numpy x) (fun a => convert_to_tensor a None None).

(** [convert_to_tensor] as the specification words it: a tensor for every
    number, every tensor and every array that is not opaque, a [TypeError]
    for everything else. *)
Definition convert_to_tensor_as_specified : Prop :=
  forall (v : pyval) dtype dev,
    if isinstance v leaf_types && negb (opaque_array v)
    then exists t, convert_to_tensor v dtype dev = Ok (VTensor t)
    else exists msg, convert_to_tensor v dtype dev = Raise (TypeError msg).

(** The round trip as the specification words it: it succeeds, with the
    elements of its argument, on every value of [round_trip_source]. *)
Definition round_trip_as_specified : Prop :=
  forall x : pyval,
    round_trip_source x = true ->
    exists t, round_trip x = Ok (VTensor t) /\ elements x = Some (t_data t).

(** The values on which the round trip succeeds: a number that [numpy]
    stores in a dtype [torch] has, a tensor that [numpy()] can export, an
    array that is not opaque and that [torch.from_numpy] accepts. *)
Definition round_trip_domain (v : pyval) : bool :=
  match v with
  | VNumber x =>
      match numpy_infer x with
      | np_numeric d => negb (is_bfloat16 d)
      | _ => false
      end
  | VTensor t => numpy_exportable t
  | VNdarray a => negb (opaque_array v) && from_numpy_accepts a
  | _ => false
  end.

(** The output stage as the specification words it: the traversal with the
    leaf set and [convert_to_tensor], applied to the whole return value. *)
Definition traverse_to_tensor (r : pyval) : M pyval :=
  apply_to_collection r leaf_types
    (fun x => lift (convert_to_tensor x None None)).

Definition output_stage_traverses (output_conversion : pyfun -> pyfun)
    : Prop :=
  forall f args kwargs rt,
    output_conversion f args kwargs rt
    = (r <- f args kwargs ;; traverse_to_tensor r) rt.

(** The synchronisation state as the specification words it: decided by the
    first call; a process found Inactive then answers every later call by
    passing the input through, without probing again. *)
Definition decided_at_first_use : Prop :=
  forall rt0 c0 rt1 c1,
    sync_state rt0 = Inactive ->
    run_process [(rt0, c0); (rt1, c1)]
    = [(probes rt0, Ok (call_input c0)); ([], Ok (call_input c1))].

(** Elementwise view of a reduction: position [k] of every buffer. *)
Definition column (k : nat) (bufs : list (list num)) : list num :=
  map (fun b => nth k b num_zero) bufs.

Definition sum_of (xs : list num) : num :=
  match xs with
  | [] => num_zero
  | x :: rest => fold_left num_add rest x
  end.

End Model.

(* ===================================================================== *)
(** ** A concrete numeric runtime: integer elements *)

(** Python integers.  [torch] stores those that fit [int64]; [numpy] stores
    those as [int64], the larger ones below [2 ^ 64] as [uint64], a dtype
    that [torch] lacks, and holds all others as objects. *)
#[export] Instance Z_numeric : NumericRuntime Z :=
  {| num_zero := 0%Z;
     cast := fun _ x => x;
     torch_scalar := fun dtype z =>
       if ((- 2 ^ 63 <=? z) && (z <? 2 ^ 63))%Z
       then Ok (default int64 dtype, z)
       else Raise (RuntimeError "Overflow when unpacking long");
     numpy_infer := fun z =>
       if ((- 2 ^ 63 <=? z) && (z <? 2 ^ 63))%Z then np_numeric int64
       else if ((0 <=? z) && (z <? 2 ^ 64))%Z then np_other "<u8"
       else np_opaque object_;
     num_repr := fun z => NilZero.string_of_int (Z.to_int z);
     num_add := Z.add;
     num_mul := Z.mul;
     num_min := Z.min;
     num_max := Z.max;
     num_div := fun x n => Z.div x (Z.of_nat n) |}.

(** A one-element [int64] host tensor. *)
Definition tensor1 (z : Z) : Tensor :=
  mkTensor [1] int64 cpu strided false [z].

(** A metric that returns its positional arguments as a list. *)
Definition list_of_args : pyfun (num := Z) :=
  fun args _ => ret (VList args).

(** A metric on arrays: the elementwise sum of its two arguments. *)
Definition add_arrays : pyfun (num := Z) :=
  fun args _ =>
    match args with
    | [VNdarray (NumArray shape d a); VNdarray (NumArray _ _ b)] =>
        ret (VNdarray (NumArray shape d (zip_with Z.add a b)))
    | _ => lift (Raise (TypeError "add_arrays expects two numeric arrays"))
    end.

(** A metric that returns a mapping of named scalar metrics. *)
Definition precision_recall : pyfun (num := Z) :=
  fun _ _ => ret (VDict [(VStr "precision", VNumber 8%Z);
                         (VStr "recall", VNumber 6%Z)]).

(** The tensor [torch.tensor([z])] of the integer runtime, for [z] in the
    range of [int64]. *)
Definition scalar_tensor (z : Z) : pyval :=
  VTensor (tensor1 z).

(** An initialised runtime whose barrier fails: a peer cannot be reached. *)
Definition unreachable_peer : runtime (num := Z) :=
  {| dist_available := true;
     dist_initialized := true;
     dist_world_size := fun _ => 2;
     dist_barrier := fun _ => Raise (RuntimeError "peer unreachable");
     dist_all_reduce := fun t _ _ => Ok t;
     dist_all_gather := fun out _ _ => Ok out |}.

(** A one-element array of Python objects. *)
Definition object_array : pyval (num := Z) :=
  VNdarray (ObjArray [1] object_ ["obj"]).

(* ===================================================================== *)
(** * Properties *)

Section Properties.

Context {num : Type} `{NumericRuntime num}.

Local Abbreviation pyval := (@pyval num).
Local Abbreviation Tensor := (@Tensor num).
Local Abbreviation ndarray := (@ndarray num).
Local Abbreviation runtime := (@runtime num).
Local Abbreviation pyfun := (@pyfun num).
Local Abbreviation sync_call := (@sync_call num).
Local Abbreviation M := (@M num).
Local Notation "x <- c1 ;; c2" := (bind c1 (fun x => c2))
  (at level 61, c1 at next level, right associativity).
Local Notation "a +++ b" := (String.append a b)
  (at level 60, right associativity).

(** ** The value converters *)

Lemma Tensor_to_None (t : Tensor) : Tensor_to t None None = t.
Proof. destruct t; reflexivity. Qed.

Lemma numeric_dtype_not_opaque (d : torch_dtype) :
  np_str_obj_array_pattern_search (torch_dtype_str d) = None.
Proof. destruct d; reflexivity. Qed.

Lemma opaque_dtype_matches (k : opaque_kind) :
  exists pos, np_str_obj_array_pattern_search (dtype_str (np_opaque k))
              = Some pos.
Proof. destruct k; simpl; eexists; reflexivity. Qed.

Lemma obj_array_opaque shape k items :
  opaque_array (VNdarray (@ObjArray num shape k items)) = true.
Proof.
  unfold opaque_array, ndarray_dtype.
  destruct (opaque_dtype_matches k) as [pos E]. rewrite E. reflexivity.
Qed.

Lemma num_array_not_opaque shape d (data : list num) :
  opaque_array (VNdarray (NumArray shape d data)) = false
  /\ opaque_array (VNdarray (ReversedArray shape d data)) = false.
Proof.
  unfold opaque_array, ndarray_dtype, dtype_str.
  rewrite numeric_dtype_not_opaque. split; reflexivity.
Qed.

Lemma convert_to_tensor_ndarray (a : ndarray) dtype dev :
  convert_to_tensor (VNdarray a) dtype dev
  = if opaque_array (VNdarray a)
    then Raise (TypeError
           "The given type ('ndarray') cannot be converted to a tensor!")
    else match torch_from_numpy a with
         | Ok t => Ok (VTensor (Tensor_to t dev dtype))
         | Raise e => Raise e
         end.
Proof.
  unfold convert_to_tensor, opaque_array.
  destruct (is_None _); reflexivity.
Qed.

(** C5 (amended): [convert_to_tensor] maps a number that [torch] can store
    to a one-element tensor holding it, an array that is not opaque and
    that [torch.from_numpy] accepts to the tensor on its buffer, cast as
    requested, and a tensor to itself cast as requested (to itself when
    neither dtype nor device is given).  It raises its [TypeError] on every
    value that is not a number, an array or a tensor and on every array of
    strings or objects.  For a number or array that [torch] refuses, what
    [torch] raises propagates. *)
Theorem convert_to_tensor_cases :
  (forall (x : num) dtype dev,
      convert_to_tensor (VNumber x) dtype dev
      = match torch_scalar dtype x with
        | Ok de =>
            Ok (VTensor (mkTensor [1] (fst de) (default cpu dev) strided
                           false [snd de]))
        | Raise e => Raise e
        end)
  /\ (forall shape d (data : list num) dtype dev,
         is_bfloat16 d = false ->
         opaque_array (VNdarray (NumArray shape d data)) = false
         /\ convert_to_tensor (VNdarray (NumArray shape d data)) dtype dev
            = Ok (VTensor (Tensor_to (mkTensor shape d cpu strided false data)
                             dev dtype))
         /\ convert_to_tensor (VNdarray (NumArray shape d data)) None None
            = Ok (VTensor (mkTensor shape d cpu strided false data)))
  /\ (forall (t : Tensor) dtype dev,
         convert_to_tensor (VTensor t) dtype dev
         = Ok (VTensor (Tensor_to t dev dtype))
         /\ convert_to_tensor (VTensor t) None None = Ok (VTensor t))
  /\ (forall shape k items dtype dev,
         opaque_array (VNdarray (@ObjArray num shape k items)) = true
         /\ convert_to_tensor (VNdarray (@ObjArray num shape k items)) dtype dev
            = Raise (TypeError
                "The given type ('ndarray') cannot be converted to a tensor!"))
  /\ (forall (v : pyval) dtype dev,
         isinstance v leaf_types = false ->
         convert_to_tensor v dtype dev
         = Raise (TypeError ("The given type ('" +++ type_name v
                             +++ "') cannot be converted to a tensor!")))
  /\ (forall (a : ndarray) dtype dev e,
         opaque_array (VNdarray a) = false ->
         torch_from_numpy a = Raise e ->
         convert_to_tensor (VNdarray a) dtype dev = Raise e).
Proof.
  split; [| split; [| split; [| split; [| split]]]].
  - intros x dtype dev. unfold convert_to_tensor, torch_tensor.
    destruct (torch_scalar dtype x) as [[d e] | err]; reflexivity.
  - intros shape d data dtype dev Hd.
    destruct (num_array_not_opaque shape d data) as [Hop _].
    split; [exact Hop |].
    rewrite !convert_to_tensor_ndarray, Hop. simpl. rewrite Hd.
    rewrite Tensor_to_None. split; reflexivity.
  - intros t dtype dev. simpl. rewrite Tensor_to_None. split; reflexivity.
  - intros shape k items dtype dev.
    split; [apply obj_array_opaque |].
    rewrite convert_to_tensor_ndarray, obj_array_opaque. reflexivity.
  - intros v dtype dev Hv. destruct v; try discriminate Hv; reflexivity.
  - intros a dtype dev e Hop He.
    rewrite convert_to_tensor_ndarray, Hop, He. reflexivity.
Qed.

(** C6 (amended): for a number that [numpy] stores in a dtype [torch] has,
    a tensor that [numpy()] can export and an array that is not opaque and
    that [torch.from_numpy] accepts, [convert_to_tensor (convert_to_numpy x)]
    with dtype and device left out succeeds, and the tensor it returns has
    exactly the elements of [x]. *)
Theorem round_trip_elements (x : pyval) :
  round_trip_domain x = true ->
  exists t : Tensor,
    round_trip x = Ok (VTensor t) /\ elements x = Some (t_data t).
Proof.
  unfold round_trip. destruct x as [n | a | t | | | | | |]; try discriminate.
  - unfold round_trip_domain, convert_to_numpy, np_array.
    destruct (numpy_infer n) as [d | k | descr]; try discriminate.
    intros Hd. apply negb_true_iff in Hd.
    destruct (num_array_not_opaque [1] d [n]) as [Hop _].
    cbn [result_bind]. rewrite convert_to_tensor_ndarray, Hop.
    simpl. rewrite Hd. eexists. split; reflexivity.
  - unfold round_trip_domain, from_numpy_accepts. intros Hsrc.
    apply andb_true_iff in Hsrc as [Hop Hacc].
    apply negb_true_iff in Hop.
    cbn [convert_to_numpy result_bind].
    rewrite convert_to_tensor_ndarray, Hop.
    destruct a as [shape d data | shape k items | shape d data
                  | shape descr data]; simpl in Hacc |- *;
      try discriminate Hacc.
    destruct (is_bfloat16 d); [discriminate Hacc |].
    eexists. split; reflexivity.
  - unfold round_trip_domain, numpy_exportable. intros Hsrc.
    apply andb_true_iff in Hsrc as [Hl Hd]. apply negb_true_iff in Hd.
    unfold convert_to_numpy, Tensor_numpy.
    cbn [Tensor_detach Tensor_cpu t_requires_grad t_device t_layout t_dtype
         t_shape t_data device_is_cpu negb].
    rewrite Hl, Hd. cbn [negb result_bind].
    destruct (num_array_not_opaque (t_shape t) (t_dtype t) (t_data t))
      as [Hop _].
    rewrite convert_to_tensor_ndarray, Hop. cbn [torch_from_numpy].
    rewrite Hd. eexists. split; reflexivity.
Qed.

(** C9: [convert_to_numpy] returns every array unchanged, arrays of strings
    or objects included; it is [convert_to_tensor] that refuses those. *)
Theorem convert_to_numpy_ndarray_identity :
  (forall a : ndarray, convert_to_numpy (VNdarray a) = Ok (VNdarray a))
  /\ (forall shape k items,
         opaque_array (VNdarray (@ObjArray num shape k items)) = true
         /\ convert_to_numpy (VNdarray (@ObjArray num shape k items))
            = Ok (VNdarray (@ObjArray num shape k items))
         /\ exists msg,
             convert_to_tensor (VNdarray (@ObjArray num shape k items)) None None
             = Raise (TypeError msg)).
Proof.
  split; [reflexivity |].
  intros shape k items. split; [apply obj_array_opaque |].
  split; [reflexivity |].
  rewrite convert_to_tensor_ndarray, obj_array_opaque.
  eexists. reflexivity.
Qed.


(** ** The monad *)

Lemma bind_ok_inv {A B} (m : M A) (k : A -> M B) (rt : runtime) tr b :
  bind m k rt = (tr, Ok b) ->
  exists tr1 a tr2,
    m rt = (tr1, Ok a) /\ k a rt = (tr2, Ok b) /\ tr = tr1 ++ tr2.
Proof.
  unfold bind. destruct (m rt) as [tr1 [a | e]]; [| discriminate].
  destruct (k a rt) as [tr2 r] eqn:Ek. intros E. inversion E; subst.
  exists tr1, a, tr2. auto.
Qed.

Lemma bind_raise {A B} (m : M A) (k : A -> M B) (rt : runtime) tr e :
  m rt = (tr, Raise e) -> bind m k rt = (tr, Raise e).
Proof. unfold bind. intros ->. reflexivity. Qed.

Lemma bind_ok {A B} (m : M A) (k : A -> M B) (rt : runtime) tr a :
  m rt = (tr, Ok a) ->
  bind m k rt = (tr ++ fst (k a rt), snd (k a rt)).
Proof. unfold bind. intros ->. destruct (k a rt); reflexivity. Qed.

Lemma bind_pure {A B} (m : M A) (k : A -> M B) (rt : runtime) a :
  m rt = ([], Ok a) -> bind m k rt = k a rt.
Proof. unfold bind. intros ->. destruct (k a rt); reflexivity. Qed.

Lemma mapM_cons {A B} (f : A -> M B) (x : A) (l : list A) :
  mapM f (x :: l) = (y <- f x ;; ys <- mapM f l ;; ret (y :: ys)).
Proof. reflexivity. Qed.

Lemma mapM_Forall2 {A B} (f : A -> M B) (rt : runtime)
    (Q : A -> B -> Prop) (l : list A) :
  Forall (fun x => forall tr y, f x rt = (tr, Ok y) -> Q x y) l ->
  forall tr l', mapM f l rt = (tr, Ok l') -> Forall2 Q l l'.
Proof.
  induction 1 as [| x l Hx _ IH]; intros tr l' E.
  - inversion E. constructor.
  - rewrite mapM_cons in E.
    apply bind_ok_inv in E as (tr1 & y & tr2 & Ey & E & _).
    apply bind_ok_inv in E as (tr3 & ys & tr4 & Eys & E & _).
    inversion E; subst. constructor; eauto.
Qed.

Lemma mapM_length {A B} (f : A -> M B) (rt : runtime) (l : list A) tr l' :
  mapM f l rt = (tr, Ok l') -> List.length l' = List.length l.
Proof.
  intros E. symmetry. eapply Forall2_length.
  apply (mapM_Forall2 f rt (fun _ _ => True) l) with (tr := tr); auto.
  apply Forall_forall. auto.
Qed.

(** A list traversal whose steps all return their argument and make no call
    returns the list and makes no call. *)
Lemma mapM_unchanged {A} (f : A -> M A) (rt : runtime) (l : list A) :
  Forall (fun x => f x rt = ([], Ok x)) l -> mapM f l rt = ([], Ok l).
Proof.
  induction 1 as [| x l Hx _ IH]; [reflexivity |].
  rewrite mapM_cons, (bind_pure _ _ _ _ Hx), (bind_pure _ _ _ _ IH).
  reflexivity.
Qed.

(** A list traversal whose steps all succeed without a call succeeds without
    a call. *)
Lemma mapM_pure {A B} (f : A -> M B) (rt : runtime) (l : list A) :
  Forall (fun x => exists y, f x rt = ([], Ok y)) l ->
  exists l', mapM f l rt = ([], Ok l').
Proof.
  induction 1 as [| x l [y Hy] _ [l' IH]]; [eexists; reflexivity |].
  exists (y :: l').
  rewrite mapM_cons, (bind_pure _ _ _ _ Hy), (bind_pure _ _ _ _ IH).
  reflexivity.
Qed.

(** ** The collection traversal *)

Lemma Forall_forallb {A} (P : A -> Prop) (p : A -> bool) (l : list A) :
  Forall (fun x => p x = true -> P x) l ->
  forallb p l = true -> Forall P l.
Proof.
  induction 1 as [| x l Hx _ IH]; simpl; [constructor |].
  intros E. apply andb_true_iff in E as [E1 E2]. constructor; auto.
Qed.

(** Whatever the traversal returns is a structure-preserving image of its
    argument, built from results of the leaf function. *)
Lemma apply_to_collection_mapped (types : list pytype)
    (fn : pyval -> M pyval) (rt : runtime) (R : pyval -> pyval -> Prop) :
  (forall v tr v', fn v rt = (tr, Ok v') -> R v v') ->
  forall d tr d',
    apply_to_collection d types fn rt = (tr, Ok d') ->
    mapped types R d d'.
Proof.
  intros HR d.
  induction d as [x | a | t | s | | l IH | l IH | kvs IH | l IH]
    using pyval_ind; intros tr d' E; simpl in E;
    match type of E with
    | context [isinstance ?v types] =>
        destruct (isinstance v types) eqn:Ei;
        [ apply mapped_leaf; eauto | ]
    end;
    try (inversion E; subst; apply mapped_other; auto; fail).
  - apply bind_ok_inv in E as (tr1 & l' & tr2 & El & E & _).
    inversion E; subst. apply mapped_list; [assumption |].
    eapply mapM_Forall2; [| exact El].
    eapply Forall_impl; [| exact IH]. simpl. eauto.
  - apply bind_ok_inv in E as (tr1 & l' & tr2 & El & E & _).
    inversion E; subst. apply mapped_tuple; [assumption |].
    eapply mapM_Forall2; [| exact El].
    eapply Forall_impl; [| exact IH]. simpl. eauto.
  - apply bind_ok_inv in E as (tr1 & l' & tr2 & El & E & _).
    inversion E; subst. apply mapped_dict; [assumption |].
    eapply mapM_Forall2; [| exact El].
    eapply Forall_impl; [| exact IH]. simpl.
    intros kv IHkv tr0 y Ey.
    apply bind_ok_inv in Ey as (tr3 & v' & tr4 & Ev & Ey & _).
    inversion Ey; subst. simpl. split; eauto.
  - apply bind_ok_inv in E as (tr1 & l' & tr2 & El & E & _).
    inversion E; subst. apply mapped_set; [assumption |].
    eapply mapM_Forall2; [| exact El].
    eapply Forall_impl; [| exact IH]. simpl. eauto.
Qed.

(** With a leaf function that makes no call and succeeds on every leaf it is
    handed, the traversal succeeds and makes no call. *)
Lemma apply_to_collection_pure (types : list pytype)
    (c : pyval -> result pyval) (p : pyval -> bool) (rt : runtime) :
  (forall v, isinstance v types = true -> p v = true ->
             exists v', c v = Ok v') ->
  forall d, leaves_ok types p d = true ->
    exists d', apply_to_collection d types (fun x => lift (c x)) rt
               = ([], Ok d').
Proof.
  intros Hc.
  induction d as [x | a | t | s | | l IH | l IH | kvs IH | l IH]
    using pyval_ind; simpl; intros Hok;
    match goal with
    | |- context [isinstance ?v types] =>
        destruct (isinstance v types) eqn:Ei;
        [ destruct (Hc _ Ei Hok) as [v' Ev]; exists v'; unfold lift;
          rewrite Ev; reflexivity | ]
    end;
    try (eexists; reflexivity).
  - destruct (mapM_pure (fun d => apply_to_collection d types
                                    (fun x => lift (c x))) rt l)
      as [l' El].
    { eapply Forall_forallb; [| exact Hok].
      eapply Forall_impl; [| exact IH]. auto. }
    eexists. rewrite (bind_pure _ _ _ _ El). reflexivity.
  - destruct (mapM_pure (fun d => apply_to_collection d types
                                    (fun x => lift (c x))) rt l)
      as [l' El].
    { eapply Forall_forallb; [| exact Hok].
      eapply Forall_impl; [| exact IH]. auto. }
    eexists. rewrite (bind_pure _ _ _ _ El). reflexivity.
  - destruct (mapM_pure
                (fun kv => v' <- apply_to_collection (snd kv) types
                                   (fun x => lift (c x)) ;;
                           ret (fst kv, v')) rt kvs) as [l' El].
    { eapply Forall_forallb; [| exact Hok].
      eapply Forall_impl; [| exact IH]. simpl.
      intros kv IHkv Hkv. destruct (IHkv Hkv) as [v' Ev].
      eexists. rewrite (bind_pure _ _ _ _ Ev). reflexivity. }
    eexists. rewrite (bind_pure _ _ _ _ El). reflexivity.
  - destruct (mapM_pure (fun d => apply_to_collection d types
                                    (fun x => lift (c x))) rt l)
      as [l' El].
    { eapply Forall_forallb; [| exact Hok].
      eapply Forall_impl; [| exact IH]. auto. }
    eexists. rewrite (bind_pure _ _ _ _ El). reflexivity.
Qed.



(** ** The conversion pipelines *)

Lemma convert_to_tensor_ok (v : pyval) dtype dev v' :
  convert_to_tensor v dtype dev = Ok v' -> exists t, v' = VTensor t.
Proof.
  destruct v as [x | a | t | | | | | |]; simpl; try discriminate.
  - destruct (torch_tensor x dtype dev); simpl; [| discriminate].
    intros E. inversion E. eauto.
  - destruct (is_None _); [| discriminate].
    destruct (torch_from_numpy a); simpl; [| discriminate].
    intros E. inversion E. eauto.
  - intros E. inversion E. eauto.
Qed.

(** What [convert_to_tensor] turns into a tensor: a number [torch] can
    store, an array that is not opaque and that [torch.from_numpy] accepts,
    any tensor. *)
Lemma convertible_cases (v : pyval) :
  convertible v
  = match v with
    | VNumber x => is_Ok (torch_scalar None x)
    | VNdarray a => negb (opaque_array v) && from_numpy_accepts a
    | VTensor _ => true
    | _ => false
    end.
Proof.
  unfold convertible. destruct v as [x | a | t | | | | | |]; try reflexivity.
  - unfold convert_to_tensor, torch_tensor.
    destruct (torch_scalar None x); reflexivity.
  - rewrite convert_to_tensor_ndarray. unfold from_numpy_accepts.
    destruct (opaque_array (VNdarray a)); [reflexivity |].
    destruct (torch_from_numpy a); reflexivity.
Qed.

Lemma convert_to_tensor_leaf (v : pyval) :
  isinstance v leaf_types = true -> convertible v = true ->
  exists v', convert_to_tensor v None None = Ok v'.
Proof.
  unfold convertible. intros _.
  destruct (convert_to_tensor v None None) as [v' | e]; [eauto |].
  discriminate.
Qed.

Lemma traverse_to_tensor_ok (rt : runtime) (r : pyval) :
  leaves_ok leaf_types convertible r = true ->
  exists r',
    traverse_to_tensor r rt = ([], Ok r')
    /\ mapped leaf_types
         (fun v v' => exists t, v' = VTensor t
                                /\ convert_to_tensor v None None = Ok v')
         r r'.
Proof.
  intros Hok.
  destruct (apply_to_collection_pure leaf_types
              (fun x => convert_to_tensor x None None)
              convertible rt
              convert_to_tensor_leaf r Hok) as [r' E].
  exists r'. split; [exact E |].
  eapply apply_to_collection_mapped; [| exact E].
  intros v tr v' Ev. unfold lift in Ev. inversion Ev as [[Et Ec]].
  destruct (convert_to_tensor_ok _ _ _ _ Ec) as [t ->]. eauto.
Qed.

Lemma apply_to_outputs_run (g : pyfun) (fn : pyval -> M pyval)
    args kwargs (rt : runtime) tr r :
  g args kwargs rt = (tr, Ok r) ->
  _apply_to_outputs fn g args kwargs rt
  = (tr ++ fst (fn r rt), snd (fn r rt)).
Proof. intros E. unfold _apply_to_outputs. apply bind_ok. exact E. Qed.

Lemma tensor_metric_output_run (g : pyfun) args kwargs (rt : runtime) tr r :
  g args kwargs rt = (tr, Ok r) ->
  _tensor_metric_output_conversion g args kwargs rt
  = (tr, convert_to_tensor r None None).
Proof.
  intros Eg. unfold _tensor_metric_output_conversion.
  erewrite apply_to_outputs_run by exact Eg. unfold lift. simpl.
  rewrite app_nil_r. reflexivity.
Qed.

Lemma tensor_collection_metric_output_run (g : pyfun) args kwargs
    (rt : runtime) tr r :
  g args kwargs rt = (tr, Ok r) ->
  leaves_ok leaf_types convertible r = true ->
  exists r',
    _tensor_collection_metric_output_conversion g args kwargs rt
    = (tr, Ok r')
    /\ mapped leaf_types
         (fun v v' => exists t, v' = VTensor t
                                /\ convert_to_tensor v None None = Ok v')
         r r'.
Proof.
  intros Eg Hok. destruct (traverse_to_tensor_ok rt r Hok) as (r' & E & Hm).
  exists r'. split; [| exact Hm].
  unfold _tensor_collection_metric_output_conversion.
  erewrite apply_to_outputs_run by exact Eg.
  unfold traverse_to_tensor in E. rewrite E. simpl.
  rewrite app_nil_r. reflexivity.
Qed.

(** C1 (amended): the three pipelines are an output stage around the
    input-converted function.  The output stage of the collection pipeline
    is the traversal of the whole return value: when [convert_to_tensor]
    succeeds on every leaf, it succeeds, and its result has the container
    structure of the return value with every number, array and tensor
    replaced by its tensor.  The output stage of the other two pipelines is
    [convert_to_tensor] applied to the whole return value, with no
    traversal. *)
Theorem output_stage_by_pipeline (f : pyfun) :
  _numpy_metric_conversion f
  = _tensor_metric_output_conversion (_numpy_metric_input_conversion f)
  /\ _tensor_metric_conversion f
     = _tensor_metric_output_conversion (_tensor_metric_input_conversion f)
  /\ _tensor_collection_metric_conversion f
     = _tensor_collection_metric_output_conversion
         (_tensor_metric_input_conversion f)
  /\ forall (g : pyfun) args kwargs rt tr r,
       g args kwargs rt = (tr, Ok r) ->
       _tensor_metric_output_conversion g args kwargs rt
       = (tr, convert_to_tensor r None None)
       /\ (leaves_ok leaf_types convertible r = true ->
           exists r',
             _tensor_collection_metric_output_conversion g args kwargs rt
             = (tr, Ok r')
             /\ mapped leaf_types
                  (fun v v' =>
                     exists t, v' = VTensor t
                               /\ convert_to_tensor v None None = Ok v')
                  r r').
Proof.
  repeat (split; [reflexivity |]).
  intros g args kwargs rt tr r Eg. split.
  - apply tensor_metric_output_run. exact Eg.
  - apply tensor_collection_metric_output_run. exact Eg.
Qed.

(** ** The input stage *)

Lemma mapM_kwargs (t : pyval -> M pyval)
    (kwargs : list (string * pyval)) (rt : runtime) :
  mapM (fun kv : pyval * pyval => v' <- t (snd kv) ;; ret (fst kv, v'))
    (map (fun kv => (VStr (fst kv), snd kv)) kwargs) rt
  = match mapM t (map snd kwargs) rt with
    | (tr, Ok vals) =>
        (tr, Ok (combine (map (fun kv => VStr (fst kv)) kwargs) vals))
    | (tr, Raise e) => (tr, Raise e)
    end.
Proof.
  induction kwargs as [| [k v] kwargs IH]; [reflexivity |].
  simpl map. rewrite !mapM_cons.
  unfold bind, ret in IH |- *. cbv beta iota zeta in IH |- *.
  simpl fst. simpl snd.
  destruct (t v rt) as [tr1 [v' | e]]; [| reflexivity].
  cbv beta iota zeta. rewrite IH.
  destruct (mapM t (map snd kwargs) rt) as [tr2 [vals | e]];
    cbv beta iota zeta; rewrite ?app_nil_r; reflexivity.
Qed.

Lemma keywords_combine (kwargs : list (string * pyval)) :
  forall vals : list pyval,
    List.length vals = List.length kwargs ->
    keywords (combine (map (fun kv => VStr (fst kv)) kwargs) vals)
    = Ok (combine (map fst kwargs) vals).
Proof.
  induction kwargs as [| [k v] kwargs IH]; intros [| x vals] E;
    try discriminate E; [reflexivity |].
  simpl. rewrite IH by (simpl in E; lia). reflexivity.
Qed.

Lemma map_fst_combine {A B} (l : list A) (l' : list B) :
  List.length l' = List.length l -> map fst (combine l l') = l.
Proof.
  revert l'. induction l as [| a l IH]; intros [| b l'] E;
    try discriminate E; [reflexivity |].
  simpl. f_equal. apply IH. simpl in E. lia.
Qed.

(** The input stage with any leaf function: one traversal per positional
    argument, in order, then one per keyword value, in order; the function
    is called with the results, under the original keywords. *)
Lemma apply_to_inputs_run (fn : pyval -> M pyval) (f : pyfun)
    (args : list pyval) (kwargs : list (string * pyval)) (rt : runtime) :
  _apply_to_inputs (fun d => apply_to_collection d leaf_types fn)
    f args kwargs rt
  = (args' <- mapM (fun d => apply_to_collection d leaf_types fn) args ;;
     vals' <- mapM (fun d => apply_to_collection d leaf_types fn)
                (map snd kwargs) ;;
     f args' (combine (map fst kwargs) vals')) rt.
Proof.
  unfold _apply_to_inputs, kwargs_dict.
  change (apply_to_collection (VTuple args) leaf_types fn)
    with (l' <- mapM (fun d => apply_to_collection d leaf_types fn) args ;;
          ret (VTuple l')).
  set (kvs := map (fun kv : string * pyval => (VStr (fst kv), snd kv)) kwargs).
  change (apply_to_collection (VDict kvs) leaf_types fn)
    with (kvs' <- mapM (fun kv : pyval * pyval =>
                          v' <- apply_to_collection (snd kv) leaf_types fn ;;
                          ret (fst kv, v')) kvs ;;
          ret (VDict kvs')).
  pose proof (mapM_kwargs (fun d => apply_to_collection d leaf_types fn)
                kwargs rt) as Hk.
  subst kvs. unfold bind, ret, call, lift in Hk |- *.
  cbv beta iota zeta in Hk |- *.
  destruct (mapM (fun d => apply_to_collection d leaf_types fn) args rt)
    as [tr1 [args' | e]]; [| reflexivity].
  cbv beta iota zeta. rewrite Hk. clear Hk.
  destruct (mapM (fun d => apply_to_collection d leaf_types fn)
              (map snd kwargs) rt) as [tr2 [vals' | e]] eqn:Ev;
    cbv beta iota zeta; [| rewrite ?app_nil_r; reflexivity].
  cbv beta iota zeta delta [iterate mapping].
  rewrite keywords_combine
    by (rewrite (mapM_length _ _ _ _ _ Ev); apply length_map).
  unfold bind. cbv beta iota zeta.
  destruct (f args' (combine (map fst kwargs) vals') rt) as [tr3 r].
  rewrite ?app_nil_r. reflexivity.
Qed.

(** C7: the input stage of the pipelines traverses the positional arguments
    and the keyword arguments separately: every positional argument is
    traversed, in order, and the function receives as many as were passed;
    every keyword value is traversed, and the function receives them under
    the keywords that were passed, which are not converted. *)
Theorem input_stage_two_traversals (f : pyfun)
    (args : list pyval) (kwargs : list (string * pyval)) (rt : runtime) :
  let to_tensor := fun d : pyval =>
    apply_to_collection d leaf_types
      (fun x => lift (convert_to_tensor x None None)) in
  let to_numpy := fun d : pyval =>
    apply_to_collection d leaf_types (fun x => lift (convert_to_numpy x)) in
  _tensor_metric_input_conversion f args kwargs rt
  = (args' <- mapM to_tensor args ;;
     vals' <- mapM to_tensor (map snd kwargs) ;;
     f args' (combine (map fst kwargs) vals')) rt
  /\ _numpy_metric_input_conversion f args kwargs rt
     = (args' <- mapM to_numpy args ;;
        vals' <- mapM to_numpy (map snd kwargs) ;;
        f args' (combine (map fst kwargs) vals')) rt
  /\ (forall fn tr args',
         mapM (fun d => apply_to_collection d leaf_types fn) args rt
         = (tr, Ok args') ->
         List.length args' = List.length args)
  /\ (forall fn tr vals',
         mapM (fun d => apply_to_collection d leaf_types fn)
           (map snd kwargs) rt = (tr, Ok vals') ->
         map fst (combine (map fst kwargs) vals') = map fst kwargs
         /\ List.length (combine (map fst kwargs) vals')
            = List.length kwargs).
Proof.
  intros to_tensor to_numpy. split; [| split; [| split]].
  - apply apply_to_inputs_run.
  - apply apply_to_inputs_run.
  - intros fn tr args' E. exact (mapM_length _ _ _ _ _ E).
  - intros fn tr vals' E. apply mapM_length in E.
    rewrite length_map in E. split.
    + apply map_fst_combine. rewrite length_map. exact E.
    + rewrite length_combine, length_map. lia.
Qed.


(** ** Synchronisation *)

Lemma available_and_initialized_run (rt : runtime) :
  available_and_initialized rt
  = (probes rt, Ok (dist_available rt && dist_initialized rt)).
Proof.
  unfold available_and_initialized, probes, bind, is_available,
    is_initialized, ret.
  destruct (dist_available rt); reflexivity.
Qed.

Lemma sync_state_Inactive (rt : runtime) :
  sync_state rt = Inactive
  <-> dist_available rt && dist_initialized rt = false.
Proof.
  unfold sync_state.
  destruct (dist_available rt && dist_initialized rt); split;
    congruence.
Qed.

Lemma sync_state_Active (rt : runtime) :
  sync_state rt = Active
  <-> dist_available rt && dist_initialized rt = true.
Proof.
  unfold sync_state.
  destruct (dist_available rt && dist_initialized rt); split;
    congruence.
Qed.

Lemma sync_ddp_if_available_inactive (rt : runtime) (v : pyval) g op :
  sync_state rt = Inactive ->
  sync_ddp_if_available v g op rt = (probes rt, Ok v).
Proof.
  intros Hs. apply sync_state_Inactive in Hs.
  unfold sync_ddp_if_available.
  erewrite bind_ok by apply available_and_initialized_run. rewrite Hs.
  simpl. rewrite app_nil_r. reflexivity.
Qed.

Lemma gather_all_tensors_if_available_inactive (rt : runtime) (v : pyval) g :
  sync_state rt = Inactive ->
  gather_all_tensors_if_available v g rt = (probes rt, Ok v).
Proof.
  intros Hs. apply sync_state_Inactive in Hs.
  unfold gather_all_tensors_if_available.
  erewrite bind_ok by apply available_and_initialized_run. rewrite Hs.
  simpl. rewrite app_nil_r. reflexivity.
Qed.

Lemma sync_ddp_if_available_active (rt : runtime) (v : pyval) g op :
  sync_state rt = Active ->
  exists rest,
    fst (sync_ddp_if_available v g op rt)
    = probes rt ++ ev_barrier (default group_WORLD g) :: rest.
Proof.
  intros Hs. apply sync_state_Active in Hs.
  unfold sync_ddp_if_available.
  erewrite bind_ok by apply available_and_initialized_run. rewrite Hs.
  cbv beta iota zeta.
  set (grp := match g with Some g0 => g0 | None => group_WORLD end).
  assert (grp = default group_WORLD g) as <- by (destruct g; reflexivity).
  destruct (match op with
            | Some (op_enum o) => (op_enum o, false)
            | Some (op_str s0) =>
                if avg_or_mean s0 then (op_enum SUM, true)
                else (op_str s0, false)
            | None => (op_enum SUM, false)
            end) as [rop divide].
  unfold bind at 1. unfold barrier at 1.
  destruct (dist_barrier rt grp) as [[] | e]; simpl.
  - match goal with
    | |- context [let (tr', r) := ?m in _] => destruct m as [tr' r]
    end.
    simpl. eexists. reflexivity.
  - eexists. reflexivity.
Qed.

Lemma gather_all_tensors_if_available_active (rt : runtime) (v : pyval) g :
  sync_state rt = Active ->
  exists rest,
    fst (gather_all_tensors_if_available v g rt)
    = probes rt ++ ev_get_world_size (default group_WORLD g) :: rest.
Proof.
  intros Hs. apply sync_state_Active in Hs.
  unfold gather_all_tensors_if_available.
  erewrite bind_ok by apply available_and_initialized_run. rewrite Hs.
  cbv beta iota zeta.
  set (grp := match g with Some g0 => g0 | None => group_WORLD end).
  assert (grp = default group_WORLD g) as <- by (destruct g; reflexivity).
  unfold bind at 1. unfold get_world_size at 1.
  match goal with
  | |- context [let (tr', r) := ?m in _] => destruct m as [tr' r]
  end.
  simpl. eexists. reflexivity.
Qed.

(** C2 (amended): the state is not stored.  Every call to
    [sync_ddp_if_available] or [gather_all_tensors_if_available] starts by
    probing the runtime, and acts on the answer of that call alone: when the
    runtime is not available and initialized at that time the call makes no
    other call and returns its input; when it is, the call goes on to the
    collective operations. *)
Theorem state_probed_at_every_call (rt : runtime) (c : sync_call) :
  exists rest,
    fst (run_call c rt) = probes rt ++ rest
    /\ hd_error (probes rt) = Some ev_is_available
    /\ (sync_state rt = Inactive ->
        rest = [] /\ snd (run_call c rt) = Ok (call_input c))
    /\ (sync_state rt = Active ->
        exists e rest', rest = e :: rest' /\ is_probe e = false).
Proof.
  destruct (sync_state rt) eqn:Hs.
  - exists []. rewrite app_nil_r.
    assert (run_call c rt = (probes rt, Ok (call_input c))) as E.
    { destruct c; simpl;
        [apply sync_ddp_if_available_inactive
        | apply gather_all_tensors_if_available_inactive]; exact Hs. }
    rewrite E. repeat split; try reflexivity. discriminate.
  - destruct c as [v g op | v g]; simpl.
    + destruct (sync_ddp_if_available_active rt v g op Hs) as [rest' E].
      eexists. split; [exact E |]. repeat split; try discriminate.
      intros _. eexists _, _. split; reflexivity.
    + destruct (gather_all_tensors_if_available_active rt v g Hs)
        as [rest' E].
      eexists. split; [exact E |]. repeat split; try discriminate.
      intros _. eexists _, _. split; reflexivity.
Qed.

(** C4: while the runtime is not available or not initialized,
    [sync_ddp_if_available] and [gather_all_tensors_if_available] return
    their input as it is, whatever group and operation are passed, and the
    only calls they make are the probes: no barrier, no collective, no
    world-size query (hence no division). *)
Theorem inactive_passthrough (rt : runtime) (v : pyval)
    (g : option process_group) (op : option reduce_op_arg) :
  sync_state rt = Inactive ->
  sync_ddp_if_available v g op rt = (probes rt, Ok v)
  /\ gather_all_tensors_if_available v g rt = (probes rt, Ok v)
  /\ forallb is_probe (probes rt) = true.
Proof.
  intros Hs. split; [| split].
  - apply sync_ddp_if_available_inactive. exact Hs.
  - apply gather_all_tensors_if_available_inactive. exact Hs.
  - unfold probes. destruct (dist_available rt); reflexivity.
Qed.


(** A list traversal whose steps all return their argument returns the
    list. *)
Lemma mapM_same {A} (f : A -> M A) (rt : runtime) (l : list A) :
  Forall (fun x => exists tr, f x rt = (tr, Ok x)) l ->
  exists tr, mapM f l rt = (tr, Ok l).
Proof.
  induction 1 as [| x l [tr1 Hx] _ [tr2 IH]]; [eexists; reflexivity |].
  rewrite mapM_cons. erewrite bind_ok by exact Hx.
  erewrite bind_ok by exact IH. simpl. eexists. reflexivity.
Qed.

(** With a leaf function that returns its argument, the traversal returns
    its argument. *)
Lemma apply_to_collection_same (types : list pytype)
    (fn : pyval -> M pyval) (rt : runtime) :
  (forall v, exists tr, fn v rt = (tr, Ok v)) ->
  forall d, exists tr, apply_to_collection d types fn rt = (tr, Ok d).
Proof.
  intros Hfn.
  induction d as [x | a | t | s | | l IH | l IH | kvs IH | l IH]
    using pyval_ind; simpl;
    match goal with
    | |- context [isinstance ?v types] =>
        destruct (isinstance v types) eqn:Ei; [apply Hfn |]
    end;
    try (eexists; reflexivity).
  - destruct (mapM_same (fun d => apply_to_collection d types fn) rt l IH)
      as [tr E].
    erewrite bind_ok by exact E. simpl. eexists. reflexivity.
  - destruct (mapM_same (fun d => apply_to_collection d types fn) rt l IH)
      as [tr E].
    erewrite bind_ok by exact E. simpl. eexists. reflexivity.
  - destruct (mapM_same
                (fun kv : pyval * pyval =>
                   v' <- apply_to_collection (snd kv) types fn ;;
                   ret (fst kv, v')) rt kvs) as [tr E].
    { eapply Forall_impl; [| exact IH]. simpl.
      intros [k v] [tr Ev]. simpl in *.
      erewrite bind_ok by exact Ev. simpl. eexists. reflexivity. }
    erewrite bind_ok by exact E. simpl. eexists. reflexivity.
  - destruct (mapM_same (fun d => apply_to_collection d types fn) rt l IH)
      as [tr E].
    erewrite bind_ok by exact E. simpl. eexists. reflexivity.
Qed.


(** C10: when the function behind [numpy_metric] or [tensor_metric] returns
    a container, the adapted call raises the [TypeError] of
    [convert_to_tensor] at the output stage; behind
    [tensor_collection_metric] the same return value is converted leaf by
    leaf (here with leaves that [convert_to_tensor] converts and with the
    runtime not available, so that synchronisation passes it through). *)
Theorem container_output_raises (g : option process_group)
    (op : option reduce_op_arg) (f : pyfun) args kwargs (rt : runtime) tr r :
  is_container r = true ->
  (_numpy_metric_input_conversion f args kwargs rt = (tr, Ok r) ->
   numpy_metric g op f args kwargs rt
   = (tr, Raise (TypeError ("The given type ('" +++ type_name r
                            +++ "') cannot be converted to a tensor!"))))
  /\ (_tensor_metric_input_conversion f args kwargs rt = (tr, Ok r) ->
      tensor_metric g op f args kwargs rt
      = (tr, Raise (TypeError ("The given type ('" +++ type_name r
                               +++ "') cannot be converted to a tensor!")))
      /\ (leaves_ok leaf_types convertible r = true ->
          sync_state rt = Inactive ->
          exists tr' r',
            tensor_collection_metric g op f args kwargs rt
            = (tr ++ tr', Ok r')
            /\ mapped leaf_types
                 (fun v v' => exists t, v' = VTensor t
                              /\ convert_to_tensor v None None = Ok v')
                 r r')).
Proof.
  intros Hc.
  assert (convert_to_tensor r None None
          = Raise (TypeError ("The given type ('" +++ type_name r
                              +++ "') cannot be converted to a tensor!")))
    as Hraise by (destruct r; try discriminate Hc; reflexivity).
  split.
  - intros E. unfold numpy_metric, sync_ddp, _numpy_metric_conversion.
    unfold _apply_to_outputs at 1. apply bind_raise.
    erewrite tensor_metric_output_run by exact E. rewrite Hraise.
    reflexivity.
  - intros E. split.
    + unfold tensor_metric, sync_ddp, _tensor_metric_conversion.
      unfold _apply_to_outputs at 1. apply bind_raise.
      erewrite tensor_metric_output_run by exact E. rewrite Hraise.
      reflexivity.
    + intros Hok Hs.
      destruct (tensor_collection_metric_output_run _ _ _ _ _ _ E Hok)
        as (r' & E1 & Hm).
      unfold tensor_collection_metric, sync_ddp,
        _tensor_collection_metric_conversion.
      erewrite apply_to_outputs_run by exact E1.
      destruct (apply_to_collection_same [torch_Tensor]
                  (fun x => sync_ddp_if_available x g op) rt) with (d := r')
        as [tr' E'].
      { intros v. eexists. apply sync_ddp_if_available_inactive. exact Hs. }
      rewrite E'. simpl. eauto.
Qed.


(** ** Reduction in an initialised group *)

Lemma replace_nth_same {A} (l : list A) :
  forall i x, nth_error l i = Some x -> replace_nth i x l = l.
Proof.
  induction l as [| y l IH]; intros [| i] x E; simpl in *;
    try discriminate E.
  - inversion E. reflexivity.
  - rewrite (IH _ _ E). reflexivity.
Qed.

Lemma zip_with_length {A B C} (f : A -> B -> C) (l1 : list A) :
  forall l2 : list B,
    List.length l2 = List.length l1 ->
    List.length (zip_with f l1 l2) = List.length l1.
Proof.
  induction l1 as [| a l1 IH]; intros [| b l2] E; simpl in *;
    try discriminate E; [reflexivity |].
  rewrite IH by lia. reflexivity.
Qed.

Lemma zip_with_nth {A} (f : A -> A -> A) (d : A) (l1 : list A) :
  forall (l2 : list A) k,
    k < List.length l1 -> List.length l2 = List.length l1 ->
    nth k (zip_with f l1 l2) d = f (nth k l1 d) (nth k l2 d).
Proof.
  induction l1 as [| a l1 IH]; intros [| b l2] k Hk E; simpl in *;
    try lia.
  destruct k as [| k]; [reflexivity |]. apply IH; lia.
Qed.

(** Position [k] of the combined buffer is the combination of position [k]
    of every buffer, in rank order. *)
Lemma reduce_buffers_nth (op : ReduceOp) (rest : list (list num)) :
  forall (b : list num) k,
    k < List.length b ->
    Forall (fun r => List.length r = List.length b) rest ->
    nth k (fold_left (zip_with (reduce_elem op)) rest b) num_zero
    = fold_left (reduce_elem op) (column k rest) (nth k b num_zero).
Proof.
  induction rest as [| r rest IH]; intros b k Hk Hall; [reflexivity |].
  inversion Hall as [| ? ? Hr Hrest]; subst. simpl.
  rewrite IH.
  - rewrite zip_with_nth by assumption. reflexivity.
  - rewrite zip_with_length by assumption. exact Hk.
  - rewrite zip_with_length by assumption. exact Hrest.
Qed.

(** C3: in an initialised group whose peers hold [peers], the peer of rank
    [i] that reduces its tensor with SUM gets back the elementwise sum of
    all peers' buffers, and with 'avg' or 'mean' that sum divided by the
    size of the group; the buffer it gets does not depend on [i].  An
    omitted group is the world group, an omitted operation is SUM. *)
Theorem reduce_sum_and_average (peers : list Tensor) (i : nat) (v : Tensor)
    (g : process_group) :
  nth_error peers i = Some v ->
  let total := reduce_buffers SUM (map t_data peers) in
  let rt := peer_runtime peers i in
  sync_ddp_if_available (VTensor v) (Some g) (Some (op_enum SUM)) rt
  = ([ev_is_available; ev_is_initialized; ev_barrier g;
      ev_all_reduce (op_enum SUM) g],
     Ok (VTensor (with_data v total)))
  /\ sync_ddp_if_available (VTensor v) (Some g) (Some (op_str "avg")) rt
     = ([ev_is_available; ev_is_initialized; ev_barrier g;
         ev_all_reduce (op_enum SUM) g; ev_get_world_size g],
        Ok (VTensor (Tensor_truediv (with_data v total)
                       (List.length peers))))
  /\ sync_ddp_if_available (VTensor v) (Some g) (Some (op_str "mean")) rt
     = sync_ddp_if_available (VTensor v) (Some g) (Some (op_str "avg")) rt
  /\ (forall (x : pyval) op (rt' : runtime),
         sync_ddp_if_available x None op rt'
         = sync_ddp_if_available x (Some group_WORLD) op rt')
  /\ (forall (x : pyval) grp (rt' : runtime),
         sync_ddp_if_available x grp None rt'
         = sync_ddp_if_available x grp (Some (op_enum SUM)) rt')
  /\ (Forall (fun p => List.length (t_data p) = List.length (t_data v))
        peers ->
      forall k, k < List.length (t_data v) ->
        nth k total num_zero = sum_of (column k (map t_data peers))).
Proof.
  intros Hi total rt.
  assert (forall s, avg_or_mean s = true ->
            sync_ddp_if_available (VTensor v) (Some g) (Some (op_str s)) rt
            = ([ev_is_available; ev_is_initialized; ev_barrier g;
                ev_all_reduce (op_enum SUM) g; ev_get_world_size g],
               Ok (VTensor (Tensor_truediv (with_data v total)
                              (List.length peers))))) as Havg.
  { intros s Hs. unfold sync_ddp_if_available. rewrite Hs.
    unfold rt, available_and_initialized, bind, is_available,
      is_initialized, barrier, all_reduce, get_world_size, ret. simpl.
    rewrite (replace_nth_same _ _ _ Hi). reflexivity. }
  split; [| split; [| split; [| split; [| split]]]].
  - unfold sync_ddp_if_available, rt, available_and_initialized, bind,
      is_available, is_initialized, barrier, all_reduce, ret. simpl.
    rewrite (replace_nth_same _ _ _ Hi). reflexivity.
  - apply Havg. reflexivity.
  - rewrite !Havg by reflexivity. reflexivity.
  - reflexivity.
  - reflexivity.
  - intros Hall k Hk. unfold total, reduce_buffers.
    destruct peers as [| p0 rest]; [destruct i; discriminate Hi |].
    inversion Hall as [| ? ? Hp0 Hrest]; subst. cbn [map].
    rewrite (reduce_buffers_nth SUM).
    + reflexivity.
    + rewrite Hp0. exact Hk.
    + apply Forall_map. eapply Forall_impl; [| exact Hrest].
      simpl. intros p Hp. rewrite Hp, Hp0. reflexivity.
Qed.


(** ** Further properties of the synchronisation functions *)

Ltac run_sync :=
  unfold sync_ddp_if_available, gather_all_tensors_if_available,
    available_and_initialized, bind, is_available, is_initialized,
    get_world_size, barrier, all_reduce, all_gather, ret, probes;
  cbv beta iota zeta.

Ltac active_runtime Hs rt :=
  apply sync_state_Active in Hs;
  destruct (dist_available rt); [| discriminate Hs];
  destruct (dist_initialized rt); [| discriminate Hs];
  clear Hs.

Lemma mapM_const {A B} (c : B) (l : list A) (rt : runtime) :
  mapM (fun _ : A => lift (Ok c)) l rt = ([], Ok (map (fun _ => c) l)).
Proof.
  induction l as [| x l IH]; [reflexivity |].
  rewrite mapM_cons.
  rewrite (bind_pure _ _ _ c (eq_refl : lift (Ok c) rt = ([], Ok c))).
  rewrite (bind_pure _ _ _ _ IH). reflexivity.
Qed.

Lemma zip_with_const {A B C} (f : A -> B -> C) (z : A) (l2 : list B) :
  forall (l1 : list nat),
    List.length l1 = List.length l2 ->
    zip_with f (map (fun _ => z) l1) l2 = map (f z) l2.
Proof.
  induction l2 as [| b l2 IH]; intros [| a l1] E; simpl in *;
    try discriminate E; [reflexivity |].
  rewrite IH by lia. reflexivity.
Qed.

(** Gather in an initialised group: the peer of rank [i] gets back a list
    with one tensor per member of the group, in rank order, the tensor at
    position [j] holding the buffer of peer [j].  The world size is queried
    first, then the barrier is passed, then the gather is made. *)
Theorem gather_all_in_group (peers : list Tensor) (i : nat) (v : Tensor)
    (g : option process_group) :
  nth_error peers i = Some v ->
  let grp := default group_WORLD g in
  let out := map (fun p => with_data (torch_zeros_like v) (t_data p)) peers in
  gather_all_tensors_if_available (VTensor v) g (peer_runtime peers i)
  = ([ev_is_available; ev_is_initialized; ev_get_world_size grp;
      ev_barrier grp; ev_all_gather grp],
     Ok (VList (map VTensor out)))
  /\ List.length out = List.length peers
  /\ map t_data out = map t_data peers
  /\ forall j p, nth_error peers j = Some p ->
       exists o, nth_error out j = Some o /\ t_data o = t_data p
                 /\ t_shape o = t_shape v /\ t_dtype o = t_dtype v.
Proof.
  intros Hi grp out. split; [| split; [| split]].
  - run_sync. cbn [peer_runtime dist_available dist_initialized
                   dist_world_size dist_barrier dist_all_gather zeros_like].
    rewrite mapM_const. cbv beta iota zeta.
    rewrite (replace_nth_same _ _ _ Hi).
    rewrite zip_with_const by apply length_seq.
    reflexivity.
  - apply length_map.
  - unfold out. rewrite map_map. reflexivity.
  - intros j p Hj. exists (with_data (torch_zeros_like v) (t_data p)).
    split; [| repeat split].
    unfold out. rewrite nth_error_map, Hj. reflexivity.
Qed.

(** A failing barrier is not caught: [sync_ddp_if_available] and
    [gather_all_tensors_if_available] raise what the barrier raised, and the
    collective operation is never started. *)
Theorem barrier_failure_propagates (rt : runtime) (t : Tensor)
    (g : option process_group) (op : option reduce_op_arg) (e : exn) :
  sync_state rt = Active ->
  dist_barrier rt (default group_WORLD g) = Raise e ->
  sync_ddp_if_available (VTensor t) g op rt
  = (probes rt ++ [ev_barrier (default group_WORLD g)], Raise e)
  /\ gather_all_tensors_if_available (VTensor t) g rt
     = (probes rt ++ [ev_get_world_size (default group_WORLD g);
                      ev_barrier (default group_WORLD g)],
        Raise e).
Proof.
  intros Hs Hb. unfold default in *. split.
  - run_sync. active_runtime Hs rt.
    destruct op as [[o | s] |]; [| destruct (avg_or_mean s) |];
      cbv beta iota zeta; rewrite Hb; reflexivity.
  - run_sync. active_runtime Hs rt. cbn [zeros_like].
    rewrite mapM_const. cbv beta iota zeta. rewrite Hb. reflexivity.
Qed.

(** With an explicit [ReduceOp] the result is what [all_reduce] leaves in
    the tensor, for every operation and every runtime: nothing is divided
    and the world size is not queried.  A failure of [all_reduce] is raised
    as it is. *)
Theorem explicit_reduce_op_run (rt : runtime) (t : Tensor)
    (g : option process_group) (o : ReduceOp) :
  sync_state rt = Active ->
  dist_barrier rt (default group_WORLD g) = Ok tt ->
  sync_ddp_if_available (VTensor t) g (Some (op_enum o)) rt
  = (probes rt ++ [ev_barrier (default group_WORLD g);
                   ev_all_reduce (op_enum o) (default group_WORLD g)],
     match dist_all_reduce rt t o (default group_WORLD g) with
     | Ok t' => Ok (VTensor t')
     | Raise e => Raise e
     end).
Proof.
  intros Hs Hb. unfold default in *. run_sync. active_runtime Hs rt.
  rewrite Hb.
  destruct (dist_all_reduce rt t o _); reflexivity.
Qed.

(** 'avg' and 'mean' are the SUM reduction followed by a division by the
    world size of the same group, for every runtime; when the reduction
    fails nothing is divided and the world size is not queried. *)
Theorem average_is_sum_then_divide (rt : runtime) (t : Tensor)
    (g : option process_group) (s : string) :
  sync_state rt = Active ->
  dist_barrier rt (default group_WORLD g) = Ok tt ->
  avg_or_mean s = true ->
  let grp := default group_WORLD g in
  sync_ddp_if_available (VTensor t) g (Some (op_str s)) rt
  = match dist_all_reduce rt t SUM grp with
    | Ok t' =>
        (probes rt ++ [ev_barrier grp; ev_all_reduce (op_enum SUM) grp;
                       ev_get_world_size grp],
         Ok (VTensor (Tensor_truediv t' (dist_world_size rt grp))))
    | Raise e =>
        (probes rt ++ [ev_barrier grp; ev_all_reduce (op_enum SUM) grp],
         Raise e)
    end.
Proof.
  intros Hs Hb Havg grp. subst grp. unfold default in *.
  run_sync. active_runtime Hs rt. rewrite Havg.
  cbv beta iota zeta. rewrite Hb.
  destruct (dist_all_reduce rt t SUM _); reflexivity.
Qed.

(** A string other than 'avg' and 'mean' is not translated: it is handed to
    [all_reduce] as it is, after the barrier, and the call raises. *)
Theorem other_string_op_forwarded (rt : runtime) (t : Tensor)
    (g : option process_group) (s : string) :
  sync_state rt = Active ->
  dist_barrier rt (default group_WORLD g) = Ok tt ->
  avg_or_mean s = false ->
  exists e,
    sync_ddp_if_available (VTensor t) g (Some (op_str s)) rt
    = (probes rt ++ [ev_barrier (default group_WORLD g);
                     ev_all_reduce (op_str s) (default group_WORLD g)],
       Raise e).
Proof.
  intros Hs Hb Havg. unfold default in *.
  run_sync. active_runtime Hs rt. rewrite Havg.
  cbv beta iota zeta. rewrite Hb.
  eexists. reflexivity.
Qed.

(** In a group of at least one member, gathering a value that is not a
    tensor raises while the output list is being prepared: the barrier is
    not reached. *)
Theorem gather_all_non_tensor (rt : runtime) (v : pyval)
    (g : option process_group) :
  sync_state rt = Active ->
  type_of v <> torch_Tensor ->
  0 < dist_world_size rt (default group_WORLD g) ->
  exists msg,
    gather_all_tensors_if_available v g rt
    = (probes rt ++ [ev_get_world_size (default group_WORLD g)],
       Raise (TypeError msg)).
Proof.
  intros Hs Hv Hn. unfold default in *.
  assert (exists msg, zeros_like v = Raise (TypeError msg)) as [msg Ez].
  { destruct v; try (eexists; reflexivity). exfalso. apply Hv. reflexivity. }
  exists msg. run_sync. active_runtime Hs rt.
  destruct (dist_world_size rt _) as [| n]; [lia |].
  cbn [seq]. rewrite mapM_cons. unfold bind, lift. rewrite Ez. reflexivity.
Qed.


(** ** Further properties of the converters and pipelines *)

(** [convert_to_numpy] succeeds on every dense tensor of a dtype [numpy]
    has, also one on an accelerator or one that requires grad, for which a
    bare [numpy()] raises: the array has the tensor's shape, dtype and
    elements.  On any other tensor it raises what [numpy()] raises. *)
Theorem convert_to_numpy_any_tensor (t : Tensor) :
  (numpy_exportable t = true ->
   convert_to_numpy (VTensor t)
   = Ok (VNdarray (NumArray (t_shape t) (t_dtype t) (t_data t))))
  /\ (numpy_exportable t = false ->
      exists msg, convert_to_numpy (VTensor t) = Raise (TypeError msg))
  /\ (t_requires_grad t = true \/ device_is_cpu (t_device t) = false ->
      exists e, Tensor_numpy t = Raise e).
Proof.
  unfold numpy_exportable, convert_to_numpy, Tensor_numpy.
  cbn [Tensor_detach Tensor_cpu t_requires_grad t_device t_layout t_dtype
       t_shape t_data device_is_cpu negb].
  split; [| split].
  - intros E. apply andb_true_iff in E as [Hl Hd].
    apply negb_true_iff in Hd. rewrite Hl, Hd. reflexivity.
  - intros E. destruct (is_strided (t_layout t)); simpl in *.
    + apply negb_false_iff in E. rewrite E. eexists. reflexivity.
    + eexists. reflexivity.
  - intros [Hg | Hd].
    + rewrite Hg. eexists. reflexivity.
    + rewrite Hd. destruct (t_requires_grad t); eexists; reflexivity.
Qed.

(** Both converters are idempotent: what [convert_to_numpy] returns it
    returns unchanged when applied again, and what [convert_to_tensor]
    returns (under any dtype and device) is returned unchanged by
    [convert_to_tensor] with dtype and device left out. *)
Theorem converters_idempotent (v v' : pyval) :
  (convert_to_numpy v = Ok v' -> convert_to_numpy v' = Ok v')
  /\ (forall dtype dev,
         convert_to_tensor v dtype dev = Ok v' ->
         convert_to_tensor v' None None = Ok v').
Proof.
  split.
  - destruct v as [x | a | t | | | | | |]; simpl; try discriminate;
      try (intros E; inversion E; reflexivity).
    destruct (Tensor_numpy _); simpl; [| discriminate].
    intros E. inversion E. reflexivity.
  - intros dtype dev E.
    destruct (convert_to_tensor_ok _ _ _ _ E) as [t ->].
    simpl. rewrite Tensor_to_None. reflexivity.
Qed.

Lemma convert_to_numpy_tensor_ready (t : Tensor) :
  numpy_exportable t = true ->
  exists a, convert_to_numpy (VTensor t) = Ok (VNdarray a).
Proof.
  unfold numpy_exportable, convert_to_numpy, Tensor_numpy.
  cbn [Tensor_detach Tensor_cpu t_requires_grad t_device t_layout t_dtype
       t_shape t_data device_is_cpu negb].
  intros E. apply andb_true_iff in E as [Hl Hd].
  apply negb_true_iff in Hd. rewrite Hl, Hd. eexists. reflexivity.
Qed.

Lemma convert_to_numpy_leaf (v : pyval) :
  isinstance v leaf_types = true -> numpy_ready v = true ->
  exists a, convert_to_numpy v = Ok (VNdarray a).
Proof.
  destruct v as [x | a | t | | | | | |]; try discriminate; intros _ Hr.
  - eexists. reflexivity.
  - eexists. reflexivity.
  - destruct (convert_to_numpy_tensor_ready t Hr) as [a E]. eauto.
Qed.

(** The traversal with [convert_to_numpy] succeeds, without a call into the
    runtime, on a value whose tensors [numpy()] can export, and puts an
    array in place of every number, tensor and array. *)
Lemma traverse_to_numpy_ok (rt : runtime) (d : pyval) :
  leaves_ok leaf_types numpy_ready d = true ->
  exists d',
    apply_to_collection d leaf_types (fun x => lift (convert_to_numpy x)) rt
    = ([], Ok d')
    /\ mapped leaf_types
         (fun v v' => exists a, v' = VNdarray a
                                /\ convert_to_numpy v = Ok v')
         d d'.
Proof.
  intros Hok.
  destruct (apply_to_collection_pure leaf_types convert_to_numpy
              numpy_ready rt) with (d := d) as [d' E].
  - intros v Hv Hr. destruct (convert_to_numpy_leaf v Hv Hr) as [a Ea]. eauto.
  - exact Hok.
  - exists d'. split; [exact E |].
    eapply apply_to_collection_mapped; [| exact E].
    intros v tr v' Ev. unfold lift in Ev. injection Ev as _ Ec.
    destruct v as [x | a | t | | | | | |]; simpl in Ec; try discriminate Ec.
    + inversion Ec; subst; eauto.
    + inversion Ec; subst; eauto.
    + destruct (Tensor_numpy _) as [a |] eqn:En; simpl in Ec;
        [| discriminate Ec].
      inversion Ec; subst. exists a. split; [reflexivity |].
      simpl. rewrite En. reflexivity.
Qed.

Lemma mapM_pure_forallb {A B} (f : A -> M B) (rt : runtime)
    (ok : A -> bool) (Q : A -> B -> Prop) (l : list A) :
  (forall x, ok x = true -> exists y, f x rt = ([], Ok y) /\ Q x y) ->
  forallb ok l = true ->
  exists l', mapM f l rt = ([], Ok l') /\ Forall2 Q l l'.
Proof.
  intros Hf. induction l as [| x l IH]; intros Hl.
  - exists []. split; [reflexivity | constructor].
  - simpl in Hl. apply andb_true_iff in Hl as [Hx Hl].
    destruct (Hf x Hx) as (y & Ey & Hy).
    destruct (IH Hl) as (l' & E & HQ). exists (y :: l').
    split; [| constructor; assumption].
    rewrite mapM_cons, (bind_pure _ _ _ _ Ey), (bind_pure _ _ _ _ E).
    reflexivity.
Qed.

(** When every tensor among the arguments is one that [numpy()] can export,
    the input stage of [numpy_metric] does not raise: the function is
    called, with as many positional arguments and the same keywords, and in
    its arguments every number, tensor and array has become an array while
    containers, strings and other values are as they were. *)
Theorem numpy_input_stage_run (f : pyfun) (args : list pyval)
    (kwargs : list (string * pyval)) (rt : runtime) :
  leaves_ok leaf_types numpy_ready (VTuple (args ++ map snd kwargs)) = true ->
  exists args' vals',
    _numpy_metric_input_conversion f args kwargs rt
    = f args' (combine (map fst kwargs) vals') rt
    /\ Forall2 (mapped leaf_types
                  (fun v v' => exists a, v' = VNdarray a
                                         /\ convert_to_numpy v = Ok v'))
         args args'
    /\ Forall2 (mapped leaf_types
                  (fun v v' => exists a, v' = VNdarray a
                                         /\ convert_to_numpy v = Ok v'))
         (map snd kwargs) vals'.
Proof.
  intros Hok.
  change (forallb (leaves_ok leaf_types numpy_ready)
            (args ++ map snd kwargs) = true) in Hok.
  rewrite forallb_app in Hok. apply andb_true_iff in Hok as [Ha Hk].
  destruct (mapM_pure_forallb
              (fun d => apply_to_collection d leaf_types
                          (fun x => lift (convert_to_numpy x))) rt
              (leaves_ok leaf_types numpy_ready)
              (mapped leaf_types
                 (fun v v' => exists a, v' = VNdarray a
                                        /\ convert_to_numpy v = Ok v'))
              args (traverse_to_numpy_ok rt) Ha) as (args' & Ea & Ha').
  destruct (mapM_pure_forallb
              (fun d => apply_to_collection d leaf_types
                          (fun x => lift (convert_to_numpy x))) rt
              (leaves_ok leaf_types numpy_ready)
              (mapped leaf_types
                 (fun v v' => exists a, v' = VNdarray a
                                        /\ convert_to_numpy v = Ok v'))
              (map snd kwargs) (traverse_to_numpy_ok rt) Hk)
    as (vals' & Ev & Hv).
  exists args', vals'. split; [| split; assumption].
  unfold _numpy_metric_input_conversion. rewrite apply_to_inputs_run.
  rewrite (bind_pure _ _ _ _ Ea), (bind_pure _ _ _ _ Ev). reflexivity.
Qed.

(** The traversal with [convert_to_tensor] raises on a value that holds a
    leaf [convert_to_tensor] cannot convert, without a call into the
    runtime. *)
Lemma traverse_to_tensor_raises (rt : runtime) (d : pyval) :
  leaves_ok leaf_types convertible d = false ->
  exists e, traverse_to_tensor d rt = ([], Raise e).
Proof.
  unfold traverse_to_tensor.
  assert (forall (A B : Type) (f : A -> M B) (ok : A -> bool) (l : list A),
             Forall (fun x => ok x = false ->
                              exists e, f x rt = ([], Raise e)) l ->
             Forall (fun x => ok x = true -> exists y, f x rt = ([], Ok y)) l ->
             forallb ok l = false ->
             exists e, mapM f l rt = ([], Raise e)) as HmapM.
  { intros A B f ok l Hbad. induction Hbad as [| x l Hx _ IH];
      intros Hgood Hl; [discriminate Hl |].
    inversion Hgood as [| ? ? Hgx Hgl]; subst.
    rewrite mapM_cons. simpl in Hl. destruct (ok x) eqn:Eok.
    - destruct (Hgx eq_refl) as [y Ey]. rewrite (bind_pure _ _ _ _ Ey).
      destruct (IH Hgl Hl) as [e Ee]. exists e.
      apply bind_raise. exact Ee.
    - destruct (Hx eq_refl) as [e Ee]. exists e.
      apply bind_raise. exact Ee. }
  assert (forall v : pyval,
             convertible v = false ->
             exists e, lift (convert_to_tensor v None None) rt
                       = ([], Raise e)) as Hleaf.
  { intros v. unfold convertible, lift.
    destruct (convert_to_tensor v None None); [discriminate | eauto]. }
  induction d as [x | a | t | s | | l IH | l IH | kvs IH | l IH]
    using pyval_ind;
    cbn [leaves_ok apply_to_collection isinstance type_of existsb pytype_eqb
         orb leaf_types];
    try (apply Hleaf); try discriminate.
  - intros Hl.
    destruct (HmapM _ _ (fun d => apply_to_collection d leaf_types
                                    (fun x => lift
                                       (convert_to_tensor x None None)))
                (leaves_ok leaf_types convertible) l IH) as [e Ee];
      [| exact Hl | exists e; apply bind_raise; exact Ee].
    apply Forall_forall. intros x _ Hx.
    exact (apply_to_collection_pure leaf_types _ _ rt
             convert_to_tensor_leaf x Hx).
  - intros Hl.
    destruct (HmapM _ _ (fun d => apply_to_collection d leaf_types
                                    (fun x => lift
                                       (convert_to_tensor x None None)))
                (leaves_ok leaf_types convertible) l IH) as [e Ee];
      [| exact Hl | exists e; apply bind_raise; exact Ee].
    apply Forall_forall. intros x _ Hx.
    exact (apply_to_collection_pure leaf_types _ _ rt
             convert_to_tensor_leaf x Hx).
  - intros Hl.
    destruct (HmapM _ _
                (fun kv : pyval * pyval =>
                   v' <- apply_to_collection (snd kv) leaf_types
                           (fun x => lift (convert_to_tensor x None None)) ;;
                   ret (fst kv, v'))
                (fun kv : pyval * pyval =>
                   leaves_ok leaf_types convertible (snd kv)) kvs)
      as [e Ee]; [| | exact Hl | exists e; apply bind_raise; exact Ee].
    + eapply Forall_impl; [| exact IH]. simpl. intros kv IHkv Hkv.
      destruct (IHkv Hkv) as [e Ee]. exists e. apply bind_raise. exact Ee.
    + apply Forall_forall. intros kv _ Hkv.
      destruct (apply_to_collection_pure leaf_types _ _ rt
                  convert_to_tensor_leaf (snd kv) Hkv) as [v' Ev].
      eexists. rewrite (bind_pure _ _ _ _ Ev). reflexivity.
  - intros Hl.
    destruct (HmapM _ _ (fun d => apply_to_collection d leaf_types
                                    (fun x => lift
                                       (convert_to_tensor x None None)))
                (leaves_ok leaf_types convertible) l IH) as [e Ee];
      [| exact Hl | exists e; apply bind_raise; exact Ee].
    apply Forall_forall. intros x _ Hx.
    exact (apply_to_collection_pure leaf_types _ _ rt
             convert_to_tensor_leaf x Hx).
Qed.

(** A leaf anywhere in the positional or keyword arguments that
    [convert_to_tensor] cannot convert makes the tensor-space adapters raise
    at the input stage: the outcome is the same for every function, which is
    not called, and no call is made into the runtime. *)
Theorem unconvertible_argument_raises (args : list pyval)
    (kwargs : list (string * pyval)) (rt : runtime) :
  leaves_ok leaf_types convertible (VTuple (args ++ map snd kwargs)) = false ->
  exists e,
    forall (f : pyfun) g op,
      tensor_metric g op f args kwargs rt = ([], Raise e)
      /\ tensor_collection_metric g op f args kwargs rt = ([], Raise e).
Proof.
  intros Hbad.
  assert (exists e, forall f : pyfun,
             _tensor_metric_input_conversion f args kwargs rt
             = ([], Raise e)) as [e Hin].
  { change (forallb (leaves_ok leaf_types convertible)
              (args ++ map snd kwargs) = false) in Hbad.
    rewrite forallb_app in Hbad.
    destruct (forallb (leaves_ok leaf_types convertible) args) eqn:Ea.
    - simpl in Hbad.
      destruct (traverse_to_tensor_raises rt (VTuple (map snd kwargs)) Hbad)
        as [e Hk].
      destruct (traverse_to_tensor_ok rt (VTuple args) Ea) as (r' & Er & _).
      unfold traverse_to_tensor in Hk, Er.
      change (apply_to_collection (VTuple ?l) leaf_types ?fn)
        with (l' <- mapM (fun d => apply_to_collection d leaf_types fn) l ;;
              ret (VTuple l')) in Hk, Er.
      apply bind_ok_inv in Er as (tr1 & args' & tr2 & Em & Er & Et).
      inversion Er; subst. rewrite app_nil_r in Et. subst tr1.
      exists e. intros f.
      unfold _tensor_metric_input_conversion. rewrite apply_to_inputs_run.
      rewrite (bind_pure _ _ _ _ Em). apply bind_raise.
      unfold bind in Hk.
      destruct (mapM _ (map snd kwargs) rt) as [tr [vals | e']].
      + simpl in Hk. discriminate Hk.
      + inversion Hk. reflexivity.
    - destruct (traverse_to_tensor_raises rt (VTuple args) Ea) as [e Ha].
      unfold traverse_to_tensor in Ha.
      change (apply_to_collection (VTuple args) leaf_types ?fn)
        with (l' <- mapM (fun d => apply_to_collection d leaf_types fn) args ;;
              ret (VTuple l')) in Ha.
      exists e. intros f.
      unfold _tensor_metric_input_conversion. rewrite apply_to_inputs_run.
      apply bind_raise. unfold bind in Ha.
      destruct (mapM _ args rt) as [tr [vals | e']].
      + simpl in Ha. discriminate Ha.
      + inversion Ha. reflexivity. }
  exists e. intros f g op. split.
  - unfold tensor_metric, sync_ddp, _tensor_metric_conversion,
      _tensor_metric_output_conversion.
    unfold _apply_to_outputs. apply bind_raise. apply bind_raise. apply Hin.
  - unfold tensor_collection_metric, sync_ddp,
      _tensor_collection_metric_conversion,
      _tensor_collection_metric_output_conversion.
    unfold _apply_to_outputs. apply bind_raise. apply bind_raise. apply Hin.
Qed.

(** ** Composition of the stages *)

Lemma sync_after_tensor_output_run (g : option process_group)
    (op : option reduce_op_arg) (h : pyfun) args kwargs (rt : runtime) :
  sync_ddp g op (_tensor_metric_output_conversion h) args kwargs rt
  = (r <- h args kwargs ;;
     t <- lift (convert_to_tensor r None None) ;;
     sync_ddp_if_available t g op) rt.
Proof.
  unfold sync_ddp, _tensor_metric_output_conversion, _apply_to_outputs.
  unfold bind, lift.
  destruct (h args kwargs rt) as [tr [r | e]]; [| reflexivity].
  destruct (convert_to_tensor r None None) as [v' | e] eqn:Ec;
    [| reflexivity].
  destruct (convert_to_tensor_ok _ _ _ _ Ec) as [t ->].
  cbn [apply_to_collection isinstance type_of existsb pytype_eqb orb].
  destruct (sync_ddp_if_available (VTensor t) g op rt) as [tr' res].
  rewrite app_nil_r. reflexivity.
Qed.

(** [numpy_metric] and [tensor_metric] are, in this order: the input stage,
    the function, [convert_to_tensor] on its whole return value, and
    [sync_ddp_if_available] on the resulting tensor.  Whatever one step
    raises ends the call: the later steps are not run. *)
Theorem single_output_adapters_run (g : option process_group)
    (op : option reduce_op_arg) (f : pyfun) args kwargs (rt : runtime) :
  numpy_metric g op f args kwargs rt
  = (r <- _numpy_metric_input_conversion f args kwargs ;;
     t <- lift (convert_to_tensor r None None) ;;
     sync_ddp_if_available t g op) rt
  /\ tensor_metric g op f args kwargs rt
     = (r <- _tensor_metric_input_conversion f args kwargs ;;
        t <- lift (convert_to_tensor r None None) ;;
        sync_ddp_if_available t g op) rt.
Proof.
  split; apply sync_after_tensor_output_run.
Qed.

Lemma sync_ddp_if_available_tensor (rt : runtime) (t : Tensor) g op tr out :
  sync_ddp_if_available (VTensor t) g op rt = (tr, Ok out) ->
  exists t', out = VTensor t'.
Proof.
  run_sync.
  destruct (dist_available rt); [destruct (dist_initialized rt) |];
    cbv beta iota zeta;
    try (intros E; inversion E; eauto; fail).
  destruct op as [[o | s] |]; [| destruct (avg_or_mean s) |];
    cbv beta iota zeta;
    destruct (dist_barrier rt _) as [[] | e1];
    try (intros E; discriminate E);
    try (destruct (dist_all_reduce rt _ _ _) as [t' | e2]);
    intros E; inversion E; eauto.
Qed.

(** A call adapted by [numpy_metric] or [tensor_metric] that returns
    normally returns a tensor, whatever the function returned and whether or
    not the runtime is initialised. *)
Theorem single_output_adapters_return_tensor (g : option process_group)
    (op : option reduce_op_arg) (f : pyfun) args kwargs (rt : runtime)
    tr out :
  (numpy_metric g op f args kwargs rt = (tr, Ok out) ->
   exists t, out = VTensor t)
  /\ (tensor_metric g op f args kwargs rt = (tr, Ok out) ->
      exists t, out = VTensor t).
Proof.
  split; intros E; unfold numpy_metric, tensor_metric,
    _numpy_metric_conversion, _tensor_metric_conversion in E;
    rewrite sync_after_tensor_output_run in E;
    apply bind_ok_inv in E as (tr1 & r & tr2 & _ & E & _);
    apply bind_ok_inv in E as (tr3 & v & tr4 & Ec & E & _);
    unfold lift in Ec; inversion Ec as [[Et Ev]];
    destruct (convert_to_tensor_ok _ _ _ _ Ev) as [t ->];
    exact (sync_ddp_if_available_tensor _ _ _ _ _ _ E).
Qed.

Lemma Forall2_Forall_r {A B} (P : A -> B -> Prop) (Q : B -> Prop)
    (l : list A) (l' : list B) :
  Forall (fun x => forall y, P x y -> Q y) l ->
  Forall2 P l l' -> Forall Q l'.
Proof.
  intros Hall H2. induction H2 as [| x y l l' Hxy _ IH];
    [constructor |].
  inversion Hall; subst. constructor; auto.
Qed.

(** A value in which every number, array and tensor has been replaced by
    its tensor is left as it is by the traversal with [convert_to_tensor]. *)
Lemma traverse_to_tensor_fixed (rt : runtime) (r : pyval) :
  forall r',
    mapped leaf_types
      (fun v v' => exists t, v' = VTensor t
                             /\ convert_to_tensor v None None = Ok v')
      r r' ->
    traverse_to_tensor r' rt = ([], Ok r').
Proof.
  unfold traverse_to_tensor.
  induction r as [x | a | t | s | | l IH | l IH | kvs IH | l IH]
    using pyval_ind; intros r' Hm; inversion Hm; subst;
    try match goal with
        | Hi : isinstance _ leaf_types = _ |- _ => discriminate Hi
        end;
    try match goal with
        | Hc : is_container _ = false |- _ => discriminate Hc
        end;
    try match goal with
        | HR : exists t, _ = VTensor t /\ _ |- _ =>
            destruct HR as (t' & -> & _); simpl; unfold lift;
            rewrite Tensor_to_None; reflexivity
        end;
    try reflexivity.
  - match goal with
    | H2 : Forall2 _ l _ |- _ =>
        pose proof (Forall2_Forall_r _ _ _ _ IH H2) as Hall
    end.
    cbn [apply_to_collection isinstance type_of existsb pytype_eqb orb
         leaf_types].
    rewrite (bind_pure _ _ _ _ (mapM_unchanged _ rt _ Hall)). reflexivity.
  - match goal with
    | H2 : Forall2 _ l _ |- _ =>
        pose proof (Forall2_Forall_r _ _ _ _ IH H2) as Hall
    end.
    cbn [apply_to_collection isinstance type_of existsb pytype_eqb orb
         leaf_types].
    rewrite (bind_pure _ _ _ _ (mapM_unchanged _ rt _ Hall)). reflexivity.
  - match goal with
    | H2 : Forall2 _ kvs ?kvs' |- _ =>
        assert (Forall (fun kv : pyval * pyval =>
                  (v' <- apply_to_collection (snd kv) leaf_types
                           (fun x => lift (convert_to_tensor x None None)) ;;
                   ret (fst kv, v')) rt = ([], Ok kv)) kvs') as Hall
    end.
    { eapply Forall2_Forall_r; [| eassumption].
      eapply Forall_impl; [| exact IH]. simpl.
      intros kv IHkv [k' v'] [_ Hv]. simpl in *.
      rewrite (bind_pure _ _ _ _ (IHkv _ Hv)). reflexivity. }
    cbn [apply_to_collection isinstance type_of existsb pytype_eqb orb
         leaf_types].
    rewrite (bind_pure _ _ _ _ (mapM_unchanged _ rt _ Hall)). reflexivity.
  - match goal with
    | H2 : Forall2 _ l _ |- _ =>
        pose proof (Forall2_Forall_r _ _ _ _ IH H2) as Hall
    end.
    cbn [apply_to_collection isinstance type_of existsb pytype_eqb orb
         leaf_types].
    rewrite (bind_pure _ _ _ _ (mapM_unchanged _ rt _ Hall)). reflexivity.
Qed.

(** The output stages are idempotent: converting the outputs of an already
    converted function gives the same outcome, return value or exception,
    with the same calls into the runtime. *)
Theorem output_conversion_idempotent (h : pyfun) args kwargs (rt : runtime) :
  _tensor_metric_output_conversion (_tensor_metric_output_conversion h)
    args kwargs rt
  = _tensor_metric_output_conversion h args kwargs rt
  /\ _tensor_collection_metric_output_conversion
       (_tensor_collection_metric_output_conversion h) args kwargs rt
     = _tensor_collection_metric_output_conversion h args kwargs rt.
Proof.
  split.
  - destruct (_tensor_metric_output_conversion h args kwargs rt)
      as [tr [v | e]] eqn:E.
    + erewrite tensor_metric_output_run by exact E.
      unfold _tensor_metric_output_conversion, _apply_to_outputs in E.
      apply bind_ok_inv in E as (tr1 & r & tr2 & _ & Ec & _).
      unfold lift in Ec. injection Ec as Et Ev.
      destruct (convert_to_tensor_ok _ _ _ _ Ev) as [t ->].
      simpl. rewrite Tensor_to_None. reflexivity.
    + unfold _tensor_metric_output_conversion at 1.
      unfold _apply_to_outputs at 1. apply bind_raise. exact E.
  - destruct (_tensor_collection_metric_output_conversion h args kwargs rt)
      as [tr [v | e]] eqn:E.
    + unfold _tensor_collection_metric_output_conversion at 1.
      erewrite apply_to_outputs_run by exact E.
      unfold _tensor_collection_metric_output_conversion,
        _apply_to_outputs in E.
      apply bind_ok_inv in E as (tr1 & r & tr2 & _ & Ec & _).
      assert (mapped leaf_types
                (fun v v' => exists t, v' = VTensor t
                             /\ convert_to_tensor v None None = Ok v')
                r v) as Hm.
      { eapply apply_to_collection_mapped; [| exact Ec].
        intros x tr0 x' Ex. unfold lift in Ex. inversion Ex as [[Et Ev]].
        destruct (convert_to_tensor_ok _ _ _ _ Ev) as [t ->]. eauto. }
      pose proof (traverse_to_tensor_fixed rt r v Hm) as Hfix.
      unfold traverse_to_tensor in Hfix. rewrite Hfix. simpl.
      rewrite app_nil_r. reflexivity.
    + unfold _tensor_collection_metric_output_conversion at 1.
      unfold _apply_to_outputs at 1. apply bind_raise. exact E.
Qed.


Lemma Forall2_compose {A} (P Q S : A -> A -> Prop) (l : list A) :
  Forall (fun x => forall y z, P x y -> Q y z -> S x z) l ->
  forall l' l'', Forall2 P l l' -> Forall2 Q l' l'' -> Forall2 S l l''.
Proof.
  induction 1 as [| x l Hx _ IH]; intros l' l'' HP HQ.
  - inversion HP; subst. inversion HQ; subst. constructor.
  - inversion HP; subst. inversion HQ; subst. constructor; eauto.
Qed.

(** Converting the leaves and then reducing the tensors is one pass that
    converts and reduces every leaf. *)
Lemma mapped_convert_then_sync (rt : runtime) g op (r : pyval) :
  forall r' r'',
    mapped leaf_types
      (fun v v' => exists t, v' = VTensor t
                             /\ convert_to_tensor v None None = Ok v')
      r r' ->
    mapped [torch_Tensor]
      (fun v v' => exists tr, sync_ddp_if_available v g op rt = (tr, Ok v'))
      r' r'' ->
    mapped leaf_types
      (fun v v'' =>
         exists t tr,
           convert_to_tensor v None None = Ok (VTensor t)
           /\ sync_ddp_if_available (VTensor t) g op rt = (tr, Ok v''))
      r r''.
Proof.
  induction r as [x | a | t | s | | l IH | l IH | kvs IH | l IH]
    using pyval_ind; intros r' r'' H1 H2; inversion H1; subst;
    try match goal with
        | Hi : isinstance _ leaf_types = _ |- _ => discriminate Hi
        end;
    try match goal with
        | Hc : is_container _ = false |- _ => discriminate Hc
        end;
    try match goal with
        | HR : exists t, _ = VTensor t /\ _ |- _ =>
            destruct HR as (t' & -> & Hc); inversion H2; subst;
            [ match goal with
              | Hs : exists tr, _ |- _ => destruct Hs as [tr Hs]
              end;
              apply mapped_leaf; [reflexivity | eauto]
            | match goal with
              | Hi : isinstance (VTensor _) _ = false |- _ => discriminate Hi
              end ]
        end;
    inversion H2; subst;
    try match goal with
        | Hi : isinstance _ [torch_Tensor] = true |- _ => discriminate Hi
        end;
    try match goal with
        | Hc : is_container _ = false |- _ => discriminate Hc
        end;
    try (apply mapped_other; reflexivity).
  - apply mapped_list; [reflexivity |].
    eapply Forall2_compose; [exact IH | eassumption | eassumption].
  - apply mapped_tuple; [reflexivity |].
    eapply Forall2_compose; [exact IH | eassumption | eassumption].
  - apply mapped_dict; [reflexivity |].
    eapply (Forall2_compose
              (fun kv kv' : pyval * pyval =>
                 fst kv' = fst kv /\ mapped leaf_types _ (snd kv) (snd kv'))
              (fun kv kv' : pyval * pyval =>
                 fst kv' = fst kv
                 /\ mapped [torch_Tensor] _ (snd kv) (snd kv')));
      [| eassumption | eassumption].
    eapply Forall_impl; [| exact IH]. simpl.
    intros kv IHkv y z [Hk1 Hm1] [Hk2 Hm2]. split; [congruence |].
    eapply IHkv; eassumption.
  - apply mapped_set; [reflexivity |].
    eapply Forall2_compose; [exact IH | eassumption | eassumption].
Qed.

(** Whatever a call adapted by [tensor_collection_metric] returns has the
    container structure of the function's return value; in place of every
    number, array and tensor it has the result of reducing that leaf's
    tensor, and every other value is unchanged. *)
Theorem collection_adapter_leafwise (g : option process_group)
    (op : option reduce_op_arg) (f : pyfun) args kwargs (rt : runtime)
    tr out :
  tensor_collection_metric g op f args kwargs rt = (tr, Ok out) ->
  exists tr0 r,
    _tensor_metric_input_conversion f args kwargs rt = (tr0, Ok r)
    /\ mapped leaf_types
         (fun v v'' =>
            exists t tr1,
              convert_to_tensor v None None = Ok (VTensor t)
              /\ sync_ddp_if_available (VTensor t) g op rt = (tr1, Ok v''))
         r out.
Proof.
  unfold tensor_collection_metric, sync_ddp,
    _tensor_collection_metric_conversion,
    _tensor_collection_metric_output_conversion, _apply_to_outputs.
  intros E.
  apply bind_ok_inv in E as (tr1 & r' & tr2 & E1 & E2 & _).
  apply bind_ok_inv in E1 as (tr0 & r & tr3 & Ein & Econv & _).
  exists tr0, r. split; [exact Ein |].
  eapply mapped_convert_then_sync.
  - eapply apply_to_collection_mapped; [| exact Econv].
    intros v tr4 v' Ev. unfold lift in Ev. injection Ev as _ Ev.
    destruct (convert_to_tensor_ok _ _ _ _ Ev) as [t ->]. eauto.
  - eapply apply_to_collection_mapped; [| exact E2]. eauto.
Qed.

End Properties.

(* ===================================================================== *)
(** * The properties at concrete inputs *)

(** C5, as stated, fails: an integer that does not fit [int64] is a number
    for which [torch.tensor] raises, and an array seen through a negative
    stride is an array of numeric dtype that [torch.from_numpy] refuses;
    neither exception is the [TypeError] of [convert_to_tensor]. *)
Lemma convert_to_tensor_as_specified_counterexample :
  convert_to_tensor (VNumber (2 ^ 63)%Z) None None
  = Raise (RuntimeError "Overflow when unpacking long")
  /\ opaque_array (VNdarray (ReversedArray [2] float64 [3%Z; 4%Z])) = false
  /\ convert_to_tensor (VNdarray (ReversedArray [2] float64 [3%Z; 4%Z]))
       None None
     = Raise (ValueError
                "At least one stride in the given numpy array is negative")
  /\ ~ convert_to_tensor_as_specified (num := Z).
Proof.
  split; [reflexivity |]. split; [reflexivity |]. split; [reflexivity |].
  intros Hc. specialize (Hc (VNumber (2 ^ 63)%Z) None None).
  cbv in Hc. destruct Hc as [t Ht]. discriminate Ht.
Defined.

Lemma convert_to_tensor_cases_witness :
  is_bfloat16 float64 = false
  /\ convert_to_tensor (VNdarray (NumArray [2] float64 [3%Z; 4%Z])) None None
     = Ok (VTensor (mkTensor [2] float64 cpu strided false [3%Z; 4%Z]))
  /\ isinstance (@VStr Z "abc") leaf_types = false
  /\ convert_to_tensor (@VStr Z "abc") None None
     = Raise (TypeError
                "The given type ('str') cannot be converted to a tensor!")
  /\ opaque_array (VNdarray (OtherArray [1] "<u2" [7%Z])) = false
  /\ torch_from_numpy (OtherArray [1] "<u2" [7%Z])
     = Raise (TypeError "can't convert np.ndarray of this type")
  /\ convert_to_tensor (VNdarray (OtherArray [1] "<u2" [7%Z])) None None
     = Raise (TypeError "can't convert np.ndarray of this type").
Proof.
  destruct (convert_to_tensor_cases (num := Z))
    as (_ & Harray & _ & _ & Hother & Hrefused).
  split; [reflexivity |].
  split; [exact (proj2 (proj2 (Harray [2] float64 [3%Z; 4%Z] None None
                                 eq_refl))) |].
  split; [reflexivity |].
  split; [exact (Hother (VStr "abc") None None eq_refl) |].
  split; [reflexivity |]. split; [reflexivity |].
  exact (Hrefused (OtherArray [1] "<u2" [7%Z]) None None _ eq_refl eq_refl).
Defined.

(** C6, as stated, fails: [numpy] holds an integer of 65 bits as an object,
    and [convert_to_tensor] refuses the array. *)
Lemma round_trip_as_specified_counterexample :
  round_trip_source (VNumber (2 ^ 64)%Z) = true
  /\ convert_to_numpy (VNumber (2 ^ 64)%Z)
     = Ok (VNdarray (ObjArray [1] object_ ["18446744073709551616"]))
  /\ round_trip (VNumber (2 ^ 64)%Z)
     = Raise (TypeError
                "The given type ('ndarray') cannot be converted to a tensor!")
  /\ ~ round_trip_as_specified (num := Z).
Proof.
  split; [reflexivity |]. split; [reflexivity |]. split; [reflexivity |].
  intros Hc. destruct (Hc (VNumber (2 ^ 64)%Z) eq_refl) as (t & Ht & _).
  discriminate Ht.
Defined.

Lemma round_trip_elements_witness :
  round_trip_domain
    (VTensor (mkTensor [2] float32 (cuda 0) strided true [3%Z; 4%Z]))
  = true
  /\ exists t,
      round_trip
        (VTensor (mkTensor [2] float32 (cuda 0) strided true [3%Z; 4%Z]))
      = Ok (VTensor t)
      /\ elements
           (VTensor (mkTensor [2] float32 (cuda 0) strided true [3%Z; 4%Z]))
         = Some (t_data t).
Proof.
  split; [reflexivity |].
  apply (round_trip_elements
           (VTensor (mkTensor [2] float32 (cuda 0) strided true
                       [3%Z; 4%Z]))).
  reflexivity.
Defined.

(** C1, as stated, fails: behind [tensor_metric] a function that returns the
    list of its arguments makes the adapted call raise, where the traversal
    of the return value would have produced a list of tensors. *)
Lemma output_stage_traverses_counterexample :
  tensor_metric None None list_of_args [VNumber 1%Z] [] no_runtime
  = ([], Raise (TypeError
                  "The given type ('list') cannot be converted to a tensor!"))
  /\ bind (_tensor_metric_input_conversion list_of_args [VNumber 1%Z] [])
       traverse_to_tensor no_runtime
     = ([], Ok (VList [scalar_tensor 1]))
  /\ ~ output_stage_traverses (num := Z) _tensor_metric_output_conversion.
Proof.
  split; [reflexivity |]. split; [reflexivity |].
  intros Hc. specialize (Hc list_of_args [VNumber 1%Z] [] no_runtime).
  vm_compute in Hc. discriminate Hc.
Defined.

Lemma output_stage_by_pipeline_witness :
  list_of_args [VNumber 1%Z] [] no_runtime = ([], Ok (VList [VNumber 1%Z]))
  /\ leaves_ok leaf_types convertible
       (VList [VNumber 1%Z]) = true
  /\ _tensor_metric_output_conversion list_of_args [VNumber 1%Z] [] no_runtime
     = ([], convert_to_tensor (VList [VNumber 1%Z]) None None)
  /\ exists r',
      _tensor_collection_metric_output_conversion list_of_args
        [VNumber 1%Z] [] no_runtime = ([], Ok r')
      /\ mapped leaf_types
           (fun v v' => exists t, v' = VTensor t
                        /\ convert_to_tensor v None None = Ok v')
           (VList [VNumber 1%Z]) r'.
Proof.
  destruct (output_stage_by_pipeline list_of_args) as (_ & _ & _ & Hout).
  destruct (Hout list_of_args [VNumber 1%Z] [] no_runtime []
              (VList [VNumber 1%Z]) eq_refl) as [Hdirect Htraverse].
  split; [reflexivity |]. split; [reflexivity |].
  split; [exact Hdirect | exact (Htraverse eq_refl)].
Defined.

Lemma input_stage_two_traversals_witness :
  let fn := fun x : pyval => lift (convert_to_tensor x None None) in
  let traverse := fun d : pyval => apply_to_collection d leaf_types fn in
  mapM traverse [VNumber 1%Z; VList [VNumber 2%Z]] no_runtime
  = ([], Ok [scalar_tensor 1; VList [scalar_tensor 2]])
  /\ mapM traverse (map snd [("k", VNumber 3%Z)]) no_runtime
     = ([], Ok [scalar_tensor 3])
  /\ List.length [scalar_tensor 1; VList [scalar_tensor 2]] = 2
  /\ map fst (combine (map fst [("k", VNumber 3%Z)]) [scalar_tensor 3])
     = ["k"]
  /\ _tensor_metric_input_conversion list_of_args
       [VNumber 1%Z; VList [VNumber 2%Z]] [("k", VNumber 3%Z)] no_runtime
     = ([], Ok (VList [scalar_tensor 1; VList [scalar_tensor 2]])).
Proof.
  intros fn traverse.
  destruct (input_stage_two_traversals list_of_args
              [VNumber 1%Z; VList [VNumber 2%Z]] [("k", VNumber 3%Z)] no_runtime)
    as (Ht & _ & Hargs & Hkw).
  split; [reflexivity |]. split; [reflexivity |].
  split; [exact (Hargs fn [] _ eq_refl) |].
  split; [exact (proj1 (Hkw fn [] _ eq_refl)) |].
  rewrite Ht. reflexivity.
Defined.


Lemma container_output_raises_witness :
  let r := VDict [(VStr "precision", VNumber 8%Z); (VStr "recall", VNumber 6%Z)] in
  is_container r = true
  /\ _numpy_metric_input_conversion precision_recall [] [] no_runtime
     = ([], Ok r)
  /\ _tensor_metric_input_conversion precision_recall [] [] no_runtime
     = ([], Ok r)
  /\ leaves_ok leaf_types convertible r = true
  /\ sync_state (num := Z) no_runtime = Inactive
  /\ numpy_metric None None precision_recall [] [] no_runtime
     = ([], Raise (TypeError
                     "The given type ('dict') cannot be converted to a tensor!"))
  /\ tensor_metric None None precision_recall [] [] no_runtime
     = ([], Raise (TypeError
                     "The given type ('dict') cannot be converted to a tensor!"))
  /\ exists tr' r',
      tensor_collection_metric None None precision_recall [] [] no_runtime
      = ([] ++ tr', Ok r')
      /\ mapped leaf_types
           (fun v v' => exists t, v' = VTensor t
                        /\ convert_to_tensor v None None = Ok v')
           r r'.
Proof.
  intros r.
  destruct (container_output_raises None None precision_recall [] []
              no_runtime [] r eq_refl) as (Hnumpy & Htensor).
  destruct (Htensor eq_refl) as (Hraise & Hcollection).
  do 5 (split; [reflexivity |]).
  split; [exact (Hnumpy eq_refl) |].
  split; [exact Hraise | exact (Hcollection eq_refl eq_refl)].
Defined.

(** C2, as stated, fails: a process that finds no runtime at its first call
    and has the runtime initialised afterwards probes again at its second
    call and takes part in the reduction. *)
Lemma decided_at_first_use_counterexample :
  sync_state (num := Z) no_runtime = Inactive
  /\ run_process
       [(no_runtime, Reduce (VTensor (tensor1 2)) None None);
        (peer_runtime [tensor1 2; tensor1 3] 0,
         Reduce (VTensor (tensor1 2)) None None)]
     = [([ev_is_available], Ok (VTensor (tensor1 2)));
        ([ev_is_available; ev_is_initialized; ev_barrier group_WORLD;
          ev_all_reduce (op_enum SUM) group_WORLD],
         Ok (VTensor (tensor1 5)))]
  /\ ~ decided_at_first_use (num := Z).
Proof.
  split; [reflexivity |]. split; [reflexivity |].
  intros Hc.
  specialize (Hc no_runtime (Reduce (VTensor (tensor1 2)) None None)
                (peer_runtime [tensor1 2; tensor1 3] 0)
                (Reduce (VTensor (tensor1 2)) None None) eq_refl).
  vm_compute in Hc. discriminate Hc.
Defined.

Lemma state_probed_at_every_call_witness :
  sync_state (peer_runtime [tensor1 2; tensor1 3] 0) = Active
  /\ exists rest,
      fst (run_call (Reduce (VTensor (tensor1 2)) None None)
             (peer_runtime [tensor1 2; tensor1 3] 0))
      = [ev_is_available; ev_is_initialized] ++ rest
      /\ exists e rest', rest = e :: rest' /\ is_probe e = false.
Proof.
  split; [reflexivity |].
  destruct (state_probed_at_every_call
              (peer_runtime [tensor1 2; tensor1 3] 0)
              (Reduce (VTensor (tensor1 2)) None None))
    as (rest & Hfst & _ & _ & Hactive).
  exists rest. split; [exact Hfst | exact (Hactive eq_refl)].
Defined.

Lemma reduce_sum_and_average_witness :
  nth_error [tensor1 2; tensor1 4; tensor1 6] 1 = Some (tensor1 4)
  /\ sync_ddp_if_available (VTensor (tensor1 4)) (Some group_WORLD)
       (Some (op_enum SUM)) (peer_runtime [tensor1 2; tensor1 4; tensor1 6] 1)
     = ([ev_is_available; ev_is_initialized; ev_barrier group_WORLD;
         ev_all_reduce (op_enum SUM) group_WORLD],
        Ok (VTensor (tensor1 12)))
  /\ sync_ddp_if_available (VTensor (tensor1 4)) (Some group_WORLD)
       (Some (op_str "avg")) (peer_runtime [tensor1 2; tensor1 4; tensor1 6] 1)
     = ([ev_is_available; ev_is_initialized; ev_barrier group_WORLD;
         ev_all_reduce (op_enum SUM) group_WORLD;
         ev_get_world_size group_WORLD],
        Ok (VTensor (tensor1 4)))
  /\ nth 0 (reduce_buffers SUM
              (map t_data [tensor1 2; tensor1 4; tensor1 6])) 0%Z
     = (2 + 4 + 6)%Z.
Proof.
  destruct (reduce_sum_and_average [tensor1 2; tensor1 4; tensor1 6] 1
              (tensor1 4) group_WORLD eq_refl)
    as (Hsum & Havg & _ & _ & _ & Hnth).
  split; [reflexivity |]. split; [exact Hsum |]. split; [exact Havg |].
  apply (Hnth ltac:(repeat constructor) 0). simpl. lia.
Defined.

Lemma inactive_passthrough_witness :
  sync_state (num := Z) no_runtime = Inactive
  /\ sync_ddp_if_available (VTensor (tensor1 7)) (Some (new_group [0; 1]))
       (Some (op_str "avg")) no_runtime
     = ([ev_is_available], Ok (VTensor (tensor1 7)))
  /\ gather_all_tensors_if_available (VTensor (tensor1 7))
       (Some (new_group [0; 1])) no_runtime
     = ([ev_is_available], Ok (VTensor (tensor1 7))).
Proof.
  destruct (inactive_passthrough no_runtime (VTensor (tensor1 7))
              (Some (new_group [0; 1])) (Some (op_str "avg")) eq_refl)
    as (Hreduce & Hgather & _).
  split; [reflexivity |]. split; [exact Hreduce | exact Hgather].
Defined.

(** Three peers compute 2, 4 and 6 with a sum of two array scalars adapted
    by [numpy_metric] with 'avg': the peer of rank 0 receives 4, as a
    tensor. *)
Example scenario_three_peers_average :
  numpy_metric None (Some (op_str "avg")) add_arrays
    [VNumber 1%Z; VTensor (tensor1 1)] []
    (peer_runtime [tensor1 2; tensor1 4; tensor1 6] 0)
  = ([ev_is_available; ev_is_initialized; ev_barrier group_WORLD;
      ev_all_reduce (op_enum SUM) group_WORLD;
      ev_get_world_size group_WORLD],
     Ok (VTensor (tensor1 4))).
Proof. reflexivity. Qed.

(** Without a runtime, a mapping of named scalars returned behind
    [tensor_collection_metric] comes back as a mapping of the same keys with
    tensor values. *)
Example scenario_composite_output :
  tensor_collection_metric None None precision_recall [] [] no_runtime
  = ([ev_is_available; ev_is_available],
     Ok (VDict [(VStr "precision", scalar_tensor 8);
                (VStr "recall", scalar_tensor 6)])).
Proof. reflexivity. Qed.

(** ** The further properties at concrete inputs *)

Lemma gather_all_in_group_witness :
  nth_error [tensor1 2; tensor1 4; tensor1 6] 1 = Some (tensor1 4)
  /\ gather_all_tensors_if_available (VTensor (tensor1 4)) None
       (peer_runtime [tensor1 2; tensor1 4; tensor1 6] 1)
     = ([ev_is_available; ev_is_initialized; ev_get_world_size group_WORLD;
         ev_barrier group_WORLD; ev_all_gather group_WORLD],
        Ok (VList [VTensor (tensor1 2); VTensor (tensor1 4);
                   VTensor (tensor1 6)])).
Proof.
  split; [reflexivity |].
  exact (proj1 (gather_all_in_group [tensor1 2; tensor1 4; tensor1 6] 1
                  (tensor1 4) None eq_refl)).
Defined.

Lemma barrier_failure_propagates_witness :
  sync_state unreachable_peer = Active
  /\ dist_barrier unreachable_peer (default group_WORLD None)
     = Raise (RuntimeError "peer unreachable")
  /\ sync_ddp_if_available (VTensor (tensor1 3)) None
       (Some (op_str "avg")) unreachable_peer
     = ([ev_is_available; ev_is_initialized; ev_barrier group_WORLD],
        Raise (RuntimeError "peer unreachable"))
  /\ gather_all_tensors_if_available (VTensor (tensor1 3)) None
       unreachable_peer
     = ([ev_is_available; ev_is_initialized; ev_get_world_size group_WORLD;
         ev_barrier group_WORLD],
        Raise (RuntimeError "peer unreachable")).
Proof.
  split; [reflexivity |]. split; [reflexivity |].
  exact (barrier_failure_propagates unreachable_peer (tensor1 3) None
           (Some (op_str "avg")) (RuntimeError "peer unreachable")
           eq_refl eq_refl).
Defined.

Lemma explicit_reduce_op_run_witness :
  sync_state (peer_runtime [tensor1 2; tensor1 5] 0) = Active
  /\ dist_barrier (peer_runtime [tensor1 2; tensor1 5] 0)
       (default group_WORLD None) = Ok tt
  /\ sync_ddp_if_available (VTensor (tensor1 2)) None (Some (op_enum MAX))
       (peer_runtime [tensor1 2; tensor1 5] 0)
     = ([ev_is_available; ev_is_initialized; ev_barrier group_WORLD;
         ev_all_reduce (op_enum MAX) group_WORLD],
        Ok (VTensor (tensor1 5))).
Proof.
  split; [reflexivity |]. split; [reflexivity |].
  exact (explicit_reduce_op_run (peer_runtime [tensor1 2; tensor1 5] 0)
           (tensor1 2) None MAX eq_refl eq_refl).
Defined.

Lemma average_is_sum_then_divide_witness :
  sync_state (peer_runtime [tensor1 2; tensor1 4] 0) = Active
  /\ dist_barrier (peer_runtime [tensor1 2; tensor1 4] 0)
       (default group_WORLD None) = Ok tt
  /\ avg_or_mean "mean" = true
  /\ sync_ddp_if_available (VTensor (tensor1 2)) None (Some (op_str "mean"))
       (peer_runtime [tensor1 2; tensor1 4] 0)
     = ([ev_is_available; ev_is_initialized; ev_barrier group_WORLD;
         ev_all_reduce (op_enum SUM) group_WORLD;
         ev_get_world_size group_WORLD],
        Ok (VTensor (tensor1 3))).
Proof.
  do 3 (split; [reflexivity |]).
  exact (average_is_sum_then_divide (peer_runtime [tensor1 2; tensor1 4] 0)
           (tensor1 2) None "mean" eq_refl eq_refl eq_refl).
Defined.

Lemma other_string_op_forwarded_witness :
  sync_state (peer_runtime [tensor1 2; tensor1 4] 0) = Active
  /\ dist_barrier (peer_runtime [tensor1 2; tensor1 4] 0)
       (default group_WORLD None) = Ok tt
  /\ avg_or_mean "sum" = false
  /\ exists e,
      sync_ddp_if_available (VTensor (tensor1 2)) None (Some (op_str "sum"))
        (peer_runtime [tensor1 2; tensor1 4] 0)
      = ([ev_is_available; ev_is_initialized] ++
         [ev_barrier group_WORLD; ev_all_reduce (op_str "sum") group_WORLD],
         Raise e).
Proof.
  do 3 (split; [reflexivity |]).
  exact (other_string_op_forwarded (peer_runtime [tensor1 2; tensor1 4] 0)
           (tensor1 2) None "sum" eq_refl eq_refl eq_refl).
Defined.

Lemma gather_all_non_tensor_witness :
  sync_state (peer_runtime [tensor1 2; tensor1 4] 0) = Active
  /\ type_of (VNumber 7%Z) <> torch_Tensor
  /\ 0 < dist_world_size (peer_runtime [tensor1 2; tensor1 4] 0)
           (default group_WORLD None)
  /\ exists msg,
      gather_all_tensors_if_available (VNumber 7%Z) None
        (peer_runtime [tensor1 2; tensor1 4] 0)
      = ([ev_is_available; ev_is_initialized] ++
         [ev_get_world_size group_WORLD],
         Raise (TypeError msg)).
Proof.
  split; [reflexivity |]. split; [discriminate |].
  split; [simpl; lia |].
  apply (gather_all_non_tensor (peer_runtime [tensor1 2; tensor1 4] 0)
           (VNumber 7%Z) None eq_refl).
  - discriminate.
  - simpl. lia.
Defined.

Lemma convert_to_numpy_any_tensor_witness :
  numpy_exportable (mkTensor [1] float32 (cuda 0) strided true [3%Z]) = true
  /\ convert_to_numpy
       (VTensor (mkTensor [1] float32 (cuda 0) strided true [3%Z]))
     = Ok (VNdarray (NumArray [1] float32 [3%Z]))
  /\ (exists e,
         Tensor_numpy (mkTensor [1] float32 (cuda 0) strided true [3%Z])
         = Raise e)
  /\ numpy_exportable (mkTensor [1] bfloat16 cpu strided false [3%Z]) = false
  /\ exists msg,
      convert_to_numpy
        (VTensor (mkTensor [1] bfloat16 cpu strided false [3%Z]))
      = Raise (TypeError msg).
Proof.
  destruct (convert_to_numpy_any_tensor
              (mkTensor [1] float32 (cuda 0) strided true [3%Z]))
    as (Hok & _ & Hbare).
  destruct (convert_to_numpy_any_tensor
              (mkTensor [1] bfloat16 cpu strided false [3%Z]))
    as (_ & Hraise & _).
  split; [reflexivity |]. split; [exact (Hok eq_refl) |].
  split; [apply Hbare; left; reflexivity |].
  split; [reflexivity | exact (Hraise eq_refl)].
Defined.

Lemma converters_idempotent_witness :
  convert_to_numpy (VNumber 3%Z) = Ok (VNdarray (np_array 3%Z))
  /\ convert_to_numpy (VNdarray (np_array 3%Z))
     = Ok (VNdarray (np_array 3%Z))
  /\ convert_to_tensor (VNumber 3%Z) (Some float64) (Some (cuda 1))
     = Ok (VTensor (mkTensor [1] float64 (cuda 1) strided false [3%Z]))
  /\ convert_to_tensor
       (VTensor (mkTensor [1] float64 (cuda 1) strided false [3%Z]))
       None None
     = Ok (VTensor (mkTensor [1] float64 (cuda 1) strided false [3%Z])).
Proof.
  split; [reflexivity |].
  split; [exact (proj1 (converters_idempotent (VNumber 3%Z)
                          (VNdarray (np_array 3%Z))) eq_refl) |].
  split; [reflexivity |].
  exact (proj2 (converters_idempotent (VNumber 3%Z)
                  (VTensor (mkTensor [1] float64 (cuda 1) strided false
                              [3%Z])))
           (Some float64) (Some (cuda 1)) eq_refl).
Defined.

Lemma numpy_input_stage_run_witness :
  leaves_ok leaf_types numpy_ready
    (VTuple ([VNumber 1%Z; VList [object_array]]
             ++ map snd [("y", VTensor (tensor1 2))])) = true
  /\ exists args' vals',
      _numpy_metric_input_conversion list_of_args
        [VNumber 1%Z; VList [object_array]] [("y", VTensor (tensor1 2))]
        no_runtime
      = list_of_args args' (combine (map fst [("y", VTensor (tensor1 2))])
                              vals') no_runtime
      /\ Forall2 (mapped leaf_types
                    (fun v v' => exists a, v' = VNdarray a
                                           /\ convert_to_numpy v = Ok v'))
           [VNumber 1%Z; VList [object_array]] args'
      /\ Forall2 (mapped leaf_types
                    (fun v v' => exists a, v' = VNdarray a
                                           /\ convert_to_numpy v = Ok v'))
           (map snd [("y", VTensor (tensor1 2))]) vals'.
Proof.
  split; [reflexivity |].
  exact (numpy_input_stage_run list_of_args
           [VNumber 1%Z; VList [object_array]] [("y", VTensor (tensor1 2))]
           no_runtime eq_refl).
Defined.

Lemma unconvertible_argument_raises_witness :
  leaves_ok leaf_types convertible
    (VTuple ([VNumber 1%Z] ++ map snd [("labels", VList [object_array])]))
  = false
  /\ tensor_metric None None list_of_args
       [VNumber 1%Z] [("labels", VList [object_array])] no_runtime
     = ([], Raise (TypeError
          "The given type ('ndarray') cannot be converted to a tensor!"))
  /\ exists e,
      forall (f : pyfun) g op,
        tensor_metric g op f
          [VNumber 1%Z] [("labels", VList [object_array])] no_runtime
        = ([], Raise e)
        /\ tensor_collection_metric g op f
             [VNumber 1%Z] [("labels", VList [object_array])] no_runtime
           = ([], Raise e).
Proof.
  split; [reflexivity |]. split; [reflexivity |].
  exact (unconvertible_argument_raises [VNumber 1%Z]
           [("labels", VList [object_array])] no_runtime eq_refl).
Defined.

Lemma single_output_adapters_return_tensor_witness :
  numpy_metric None (Some (op_str "avg")) add_arrays
    [VNumber 1%Z; VTensor (tensor1 1)] []
    (peer_runtime [tensor1 2; tensor1 4; tensor1 6] 0)
  = ([ev_is_available; ev_is_initialized; ev_barrier group_WORLD;
      ev_all_reduce (op_enum SUM) group_WORLD;
      ev_get_world_size group_WORLD],
     Ok (VTensor (tensor1 4)))
  /\ exists t, VTensor (tensor1 4) = VTensor t.
Proof.
  split; [reflexivity |].
  exact (proj1 (single_output_adapters_return_tensor None
                  (Some (op_str "avg")) add_arrays
                  [VNumber 1%Z; VTensor (tensor1 1)] []
                  (peer_runtime [tensor1 2; tensor1 4; tensor1 6] 0)
                  _ (VTensor (tensor1 4))) eq_refl).
Defined.

Lemma collection_adapter_leafwise_witness :
  tensor_collection_metric None None precision_recall [] []
    (peer_runtime [tensor1 0; tensor1 1] 0)
  = ([ev_is_available; ev_is_initialized; ev_barrier group_WORLD;
      ev_all_reduce (op_enum SUM) group_WORLD;
      ev_is_available; ev_is_initialized; ev_barrier group_WORLD;
      ev_all_reduce (op_enum SUM) group_WORLD],
     Ok (VDict [(VStr "precision", scalar_tensor 9);
                (VStr "recall", scalar_tensor 7)]))
  /\ exists tr0 r,
      _tensor_metric_input_conversion precision_recall [] []
        (peer_runtime [tensor1 0; tensor1 1] 0) = (tr0, Ok r)
      /\ mapped leaf_types
           (fun v v'' =>
              exists t tr1,
                convert_to_tensor v None None = Ok (VTensor t)
                /\ sync_ddp_if_available (VTensor t) None None
                     (peer_runtime [tensor1 0; tensor1 1] 0)
                   = (tr1, Ok v''))
           r
           (VDict [(VStr "precision", scalar_tensor 9);
                   (VStr "recall", scalar_tensor 7)]).
Proof.
  split; [reflexivity |].
  exact (collection_adapter_leafwise None None precision_recall [] []
           (peer_runtime [tensor1 0; tensor1 1] 0) _ _ eq_refl).
Defined.
